(** * Spill transfer engine of the TW-TDC embedded firmware

    Shallow embedding of [ARM/TWTDCEmbedded/main.c]: the polling context
    ([main], [init], [beamOnTransfer]) as a statement-level step function, the
    interrupt handler [beamOffTransfer] as a function that runs to completion,
    and the interleaving of the two (plus the dual-port RAM's hardware side) as
    an event-driven machine.

    Left out, because they neither read nor write anything the transfer uses:
    the trace output ([TRACE_DEBUG], [TRACE_INFO]), the two LEDs, the pin and
    bus configuration of [ConfigureDPRam] and [ConfigureLED], and the reads of
    the interrupt status ([PIO_GetISR], [*dpIntAddr]) whose value is dropped. *)

From Stdlib Require Import ZArith List Bool Lia.
Import ListNotations.
Open Scope Z_scope.

(** ** Local definitions (main.c lines 15-41) *)

Definition DPSIZE : Z := 0x20000.
Definition NDPWORDS : Z := 0x8000.
Definition NBANKS : Z := 16.
Definition NWORDSPERBANK : Z := 0x400.
Definition NWORDSMASK : Z := 0x7ff00000.
Definition BANKIDMASK : Z := 0x0000000f.

Definition BOS : Z := 0.
Definition EOS : Z := 1.
Definition READY : Z := 2.

(** Addresses (lines 58-62).  An [lPTR] is a 32-bit byte address. *)
Definition dpStartAddr : Z := 0x50000000.
Definition dpEndAddr : Z := 0x50010000.
Definition dpIntAddr : Z := 0x5001fff8.
Definition sdStartAddr : Z := 0x20008000.
Definition sdEndAddr : Z := 0x23f00000.

(** ** Machine words and pointers

    [unsigned int], [unsigned long] and pointers are all 32 bits wide on the
    target.  Pointer arithmetic on an [lPTR] moves by four bytes per element;
    where ISO C leaves out-of-object arithmetic undefined the model gives it
    the target's wrap-around. *)

Definition wrap32 (x : Z) : Z := x mod 2 ^ 32.

Definition sint32 (x : Z) : Z :=
  if wrap32 x <? 2 ^ 31 then wrap32 x else wrap32 x - 2 ^ 32.

(** [p + k] for [lPTR p]. *)
Definition padd (p k : Z) : Z := wrap32 (p + 4 * k).

(** [a - b] for two [lPTR]s, converted to [unsigned int]. *)
Definition ptr_diff (a b : Z) : Z := wrap32 (sint32 (a - b) / 4).

(** The payload-length field of a bank header (line 129). *)
Definition word_count (header : Z) : Z :=
  Z.shiftr (Z.land header NWORDSMASK) 20.

(** ** Memory

    One flat word-granular memory indexed by byte address: dual-port RAM,
    SDRAM and whatever else the bus decodes.  A load yields a 32-bit word. *)

Definition Mem : Type := Z -> Z.

Definition load (m : Mem) (a : Z) : Z := wrap32 (m a).

Definition store (m : Mem) (a v : Z) : Mem :=
  fun a' => if a' =? a then v else m a'.

(** The words at [a], [a+1], ... ([len] of them). *)
Fixpoint read_words (m : Mem) (a : Z) (len : nat) : list Z :=
  match len with
  | O => []
  | S len' => load m a :: read_words m (padd a 1) len'
  end.

(** The C arrays [dpBankStartAddr] and [dpBankLastAddr] (16 entries, indexed
    within bounds by the code). *)
Definition tbl_get (t : list Z) (k : Z) : Z := nth (Z.to_nat k) t 0.

Fixpoint set_nth (n : nat) (v : Z) (t : list Z) : list Z :=
  match t, n with
  | [], _ => []
  | _ :: t', O => v :: t'
  | x :: t', S n' => x :: set_nth n' v t'
  end.

Definition tbl_set (t : list Z) (k v : Z) : list Z := set_nth (Z.to_nat k) v t.

(** ** Machine state

    The program points of the polling context are named after the source
    line of the statement about to run. *)

Inductive Line : Type :=
  | L320                                     (* main *)
  | L79 | L80 | L81 | L83 | L84 | L87 | L91 | L94 | L99          (* init *)
  | L113 | L115 | L118 | L119 | L121 | L122 | L124 | L128 | L129
  | L135 | L141 | L145 | L146 | L148 | L156 | L160 | L161 | L164
  | L173.                                    (* beamOnTransfer *)

(** Globals, then the locals of the polling context ([init_i] is the loop
    variable of [init]; the rest are the locals of [beamOnTransfer]), then
    whether the processor is inside the interrupt handler. *)
Record Machine : Type := {
  state : Z;
  nWordsTotal : Z;
  dpBankStartAddr : list Z;
  dpBankLastAddr : list Z;
  currentSDAddr : Z;
  mem : Mem;
  pc : Line;
  init_i : Z;
  sdAddr : Z;
  currentDPBank : Z;
  header : Z;
  dpAddr : Z;
  nWords : Z;
  eventID : Z;
  i : Z;
  in_handler : bool
}.

(** Field updates. *)
Definition set_state (v : Z) (m : Machine) : Machine :=
  {| state := v; nWordsTotal := nWordsTotal m; dpBankStartAddr := dpBankStartAddr m;
     dpBankLastAddr := dpBankLastAddr m; currentSDAddr := currentSDAddr m;
     mem := mem m; pc := pc m; init_i := init_i m; sdAddr := sdAddr m;
     currentDPBank := currentDPBank m; header := header m; dpAddr := dpAddr m;
     nWords := nWords m; eventID := eventID m; i := i m; in_handler := in_handler m |}.

Definition set_nWordsTotal (v : Z) (m : Machine) : Machine :=
  {| state := state m; nWordsTotal := v; dpBankStartAddr := dpBankStartAddr m;
     dpBankLastAddr := dpBankLastAddr m; currentSDAddr := currentSDAddr m;
     mem := mem m; pc := pc m; init_i := init_i m; sdAddr := sdAddr m;
     currentDPBank := currentDPBank m; header := header m; dpAddr := dpAddr m;
     nWords := nWords m; eventID := eventID m; i := i m; in_handler := in_handler m |}.

Definition set_dpBankStartAddr (v : list Z) (m : Machine) : Machine :=
  {| state := state m; nWordsTotal := nWordsTotal m; dpBankStartAddr := v;
     dpBankLastAddr := dpBankLastAddr m; currentSDAddr := currentSDAddr m;
     mem := mem m; pc := pc m; init_i := init_i m; sdAddr := sdAddr m;
     currentDPBank := currentDPBank m; header := header m; dpAddr := dpAddr m;
     nWords := nWords m; eventID := eventID m; i := i m; in_handler := in_handler m |}.

Definition set_dpBankLastAddr (v : list Z) (m : Machine) : Machine :=
  {| state := state m; nWordsTotal := nWordsTotal m;
     dpBankStartAddr := dpBankStartAddr m; dpBankLastAddr := v;
     currentSDAddr := currentSDAddr m; mem := mem m; pc := pc m; init_i := init_i m;
     sdAddr := sdAddr m; currentDPBank := currentDPBank m; header := header m;
     dpAddr := dpAddr m; nWords := nWords m; eventID := eventID m; i := i m;
     in_handler := in_handler m |}.

Definition set_currentSDAddr (v : Z) (m : Machine) : Machine :=
  {| state := state m; nWordsTotal := nWordsTotal m;
     dpBankStartAddr := dpBankStartAddr m; dpBankLastAddr := dpBankLastAddr m;
     currentSDAddr := v; mem := mem m; pc := pc m; init_i := init_i m;
     sdAddr := sdAddr m; currentDPBank := currentDPBank m; header := header m;
     dpAddr := dpAddr m; nWords := nWords m; eventID := eventID m; i := i m;
     in_handler := in_handler m |}.

Definition set_mem (v : Mem) (m : Machine) : Machine :=
  {| state := state m; nWordsTotal := nWordsTotal m;
     dpBankStartAddr := dpBankStartAddr m; dpBankLastAddr := dpBankLastAddr m;
     currentSDAddr := currentSDAddr m; mem := v; pc := pc m; init_i := init_i m;
     sdAddr := sdAddr m; currentDPBank := currentDPBank m; header := header m;
     dpAddr := dpAddr m; nWords := nWords m; eventID := eventID m; i := i m;
     in_handler := in_handler m |}.

Definition set_pc (v : Line) (m : Machine) : Machine :=
  {| state := state m; nWordsTotal := nWordsTotal m;
     dpBankStartAddr := dpBankStartAddr m; dpBankLastAddr := dpBankLastAddr m;
     currentSDAddr := currentSDAddr m; mem := mem m; pc := v; init_i := init_i m;
     sdAddr := sdAddr m; currentDPBank := currentDPBank m; header := header m;
     dpAddr := dpAddr m; nWords := nWords m; eventID := eventID m; i := i m;
     in_handler := in_handler m |}.

Definition set_init_i (v : Z) (m : Machine) : Machine :=
  {| state := state m; nWordsTotal := nWordsTotal m;
     dpBankStartAddr := dpBankStartAddr m; dpBankLastAddr := dpBankLastAddr m;
     currentSDAddr := currentSDAddr m; mem := mem m; pc := pc m; init_i := v;
     sdAddr := sdAddr m; currentDPBank := currentDPBank m; header := header m;
     dpAddr := dpAddr m; nWords := nWords m; eventID := eventID m; i := i m;
     in_handler := in_handler m |}.

Definition set_sdAddr (v : Z) (m : Machine) : Machine :=
  {| state := state m; nWordsTotal := nWordsTotal m;
     dpBankStartAddr := dpBankStartAddr m; dpBankLastAddr := dpBankLastAddr m;
     currentSDAddr := currentSDAddr m; mem := mem m; pc := pc m; init_i := init_i m;
     sdAddr := v; currentDPBank := currentDPBank m; header := header m;
     dpAddr := dpAddr m; nWords := nWords m; eventID := eventID m; i := i m;
     in_handler := in_handler m |}.

Definition set_currentDPBank (v : Z) (m : Machine) : Machine :=
  {| state := state m; nWordsTotal := nWordsTotal m;
     dpBankStartAddr := dpBankStartAddr m; dpBankLastAddr := dpBankLastAddr m;
     currentSDAddr := currentSDAddr m; mem := mem m; pc := pc m; init_i := init_i m;
     sdAddr := sdAddr m; currentDPBank := v; header := header m; dpAddr := dpAddr m;
     nWords := nWords m; eventID := eventID m; i := i m; in_handler := in_handler m |}.

Definition set_header (v : Z) (m : Machine) : Machine :=
  {| state := state m; nWordsTotal := nWordsTotal m;
     dpBankStartAddr := dpBankStartAddr m; dpBankLastAddr := dpBankLastAddr m;
     currentSDAddr := currentSDAddr m; mem := mem m; pc := pc m; init_i := init_i m;
     sdAddr := sdAddr m; currentDPBank := currentDPBank m; header := v;
     dpAddr := dpAddr m; nWords := nWords m; eventID := eventID m; i := i m;
     in_handler := in_handler m |}.

Definition set_dpAddr (v : Z) (m : Machine) : Machine :=
  {| state := state m; nWordsTotal := nWordsTotal m;
     dpBankStartAddr := dpBankStartAddr m; dpBankLastAddr := dpBankLastAddr m;
     currentSDAddr := currentSDAddr m; mem := mem m; pc := pc m; init_i := init_i m;
     sdAddr := sdAddr m; currentDPBank := currentDPBank m; header := header m;
     dpAddr := v; nWords := nWords m; eventID := eventID m; i := i m;
     in_handler := in_handler m |}.

Definition set_nWords (v : Z) (m : Machine) : Machine :=
  {| state := state m; nWordsTotal := nWordsTotal m;
     dpBankStartAddr := dpBankStartAddr m; dpBankLastAddr := dpBankLastAddr m;
     currentSDAddr := currentSDAddr m; mem := mem m; pc := pc m; init_i := init_i m;
     sdAddr := sdAddr m; currentDPBank := currentDPBank m; header := header m;
     dpAddr := dpAddr m; nWords := v; eventID := eventID m; i := i m;
     in_handler := in_handler m |}.

Definition set_eventID (v : Z) (m : Machine) : Machine :=
  {| state := state m; nWordsTotal := nWordsTotal m;
     dpBankStartAddr := dpBankStartAddr m; dpBankLastAddr := dpBankLastAddr m;
     currentSDAddr := currentSDAddr m; mem := mem m; pc := pc m; init_i := init_i m;
     sdAddr := sdAddr m; currentDPBank := currentDPBank m; header := header m;
     dpAddr := dpAddr m; nWords := nWords m; eventID := v; i := i m;
     in_handler := in_handler m |}.

Definition set_i (v : Z) (m : Machine) : Machine :=
  {| state := state m; nWordsTotal := nWordsTotal m;
     dpBankStartAddr := dpBankStartAddr m; dpBankLastAddr := dpBankLastAddr m;
     currentSDAddr := currentSDAddr m; mem := mem m; pc := pc m; init_i := init_i m;
     sdAddr := sdAddr m; currentDPBank := currentDPBank m; header := header m;
     dpAddr := dpAddr m; nWords := nWords m; eventID := eventID m; i := v;
     in_handler := in_handler m |}.

Definition set_in_handler (v : bool) (m : Machine) : Machine :=
  {| state := state m; nWordsTotal := nWordsTotal m;
     dpBankStartAddr := dpBankStartAddr m; dpBankLastAddr := dpBankLastAddr m;
     currentSDAddr := currentSDAddr m; mem := mem m; pc := pc m; init_i := init_i m;
     sdAddr := sdAddr m; currentDPBank := currentDPBank m; header := header m;
     dpAddr := dpAddr m; nWords := nWords m; eventID := eventID m; i := i m;
     in_handler := v |}.

(** ** The polling context: [main], [init] and [beamOnTransfer]

    [exec l m] runs the statement at line [l]; one call of [poll] runs the
    statement at [pc m].  Reads of the volatile [state] and of memory happen
    in the step that contains them, so an interrupt or a hardware write
    scheduled between two steps is seen by the next one. *)

Definition goto (l : Line) (m : Machine) : Machine := set_pc l m.

Definition exec (l : Line) (m : Machine) : Machine :=
  match l with
  (* main, line 320: if(state == READY) beamOnTransfer(); *)
  | L320 => if state m =? READY then goto L79 m else m
  (* init, lines 79-99 *)
  | L79 => goto L80 (set_dpBankStartAddr (tbl_set (dpBankStartAddr m) 0 dpStartAddr) m)
  | L80 => goto L81 (set_init_i 1           (* ... and [int i = 1] of line 81 *)
             (set_mem (store (mem m) (tbl_get (dpBankStartAddr m) 0) 0) m))
  | L81 => if init_i m <? NBANKS then goto L83 m else goto L91 m
  | L83 => goto L84 (set_dpBankStartAddr
             (tbl_set (dpBankStartAddr m) (init_i m)
                (padd (tbl_get (dpBankStartAddr m) (init_i m - 1)) NWORDSPERBANK)) m)
  | L84 => goto L87 (set_dpBankLastAddr
             (tbl_set (dpBankLastAddr m) (init_i m)
                (padd (tbl_get (dpBankStartAddr m) (init_i m)) (NWORDSPERBANK - 3))) m)
  | L87 => goto L81 (set_init_i (init_i m + 1)       (* ... and [++i] *)
             (set_mem (store (mem m) (tbl_get (dpBankStartAddr m) (init_i m)) 0) m))
  | L91 => goto L94 m                       (* dummy = *dpIntAddr; *)
  | L94 => goto L99 (set_state BOS m)
  | L99 => goto L113 (set_nWordsTotal 0 m)
  (* beamOnTransfer, lines 113-173 *)
  | L113 => goto L115 (set_currentDPBank 0 (set_sdAddr sdStartAddr m))
  | L115 => if state m =? BOS then goto L118 m else goto L173 m
  | L118 => goto L119
             (set_header (load (mem m) (tbl_get (dpBankStartAddr m) (currentDPBank m))) m)
  | L119 => if header m =? 0 then goto L121 m else goto L128 m
  | L121 => goto L122 (set_currentDPBank (Z.land (currentDPBank m + 1) BANKIDMASK) m)
  | L122 => goto L124
             (set_header (load (mem m) (tbl_get (dpBankStartAddr m) (currentDPBank m))) m)
  | L124 => if negb (state m =? BOS) then goto L128 m else goto L119 m
  | L128 => goto L129
             (set_dpAddr (padd (tbl_get (dpBankStartAddr m) (currentDPBank m)) 1) m)
  | L129 => goto L135 (set_nWords (word_count (header m)) m)
  | L135 => goto L141
             (set_eventID (load (mem m) (tbl_get (dpBankLastAddr m) (currentDPBank m))) m)
  | L141 => goto L145 (set_sdAddr (padd (sdAddr m) 1)          (* lines 141-142 *)
             (set_mem (store (mem m) (sdAddr m) (header m)) m))
  | L145 => goto L146 (set_i (wrap32 (nWords m - 1)) m)
  | L146 => if negb (i m =? 0) then goto L148 m else goto L156 m
  | L148 => goto L146 (set_i (wrap32 (i m - 1))    (* lines 148-149 and [--i] *)
             (set_dpAddr (padd (dpAddr m) 1)
             (set_sdAddr (padd (sdAddr m) 1)
             (set_mem (store (mem m) (sdAddr m) (wrap32 (load (mem m) (dpAddr m) + 1))) m))))
  | L156 => goto L160 (set_sdAddr (padd (sdAddr m) 1)          (* lines 156-157 *)
             (set_mem (store (mem m) (sdAddr m) (eventID m)) m))
  | L160 => goto L161
             (set_mem (store (mem m) (tbl_get (dpBankStartAddr m) (currentDPBank m)) 0) m)
  | L161 => goto L164 (set_currentDPBank (Z.land (currentDPBank m + 1) BANKIDMASK) m)
  | L164 => goto L115 (set_nWordsTotal (ptr_diff (sdAddr m) sdStartAddr) m)
  | L173 => goto L320 (set_nWordsTotal (ptr_diff (sdAddr m) sdStartAddr) m)
  end.

Definition poll (m : Machine) : Machine := exec (pc m) m.

Fixpoint poll_n (k : nat) (m : Machine) : Machine :=
  match k with
  | O => m
  | S k' => poll_n k' (poll m)
  end.

(** ** The interrupt handler: [beamOffTransfer]

    The handler is not preempted by the polling context, so it is a function
    of the machine and of the pin level [dp_lev] that [PIO_Get] returns (1 for
    a high pin, 0 for a low one). *)

(** Lines 192-201: the first entry of a spill. *)
Definition beamOff_firstEntry (m : Machine) : Machine :=
  if state m =? BOS
  then set_currentSDAddr sdStartAddr (set_state EOS m)
  else m.

(** Lines 214-223: [for(; i != 0; --i) { *dpAddr = *currentSDAddr; ... }];
    returns the final [currentSDAddr] and memory. *)
Fixpoint sd_to_dp (i : nat) (dpAddr cur : Z) (mm : Mem) : Z * Mem :=
  match i with
  | O => (cur, mm)
  | S i' => sd_to_dp i' (padd dpAddr 1) (padd cur 1) (store mm dpAddr (load mm cur))
  end.

(** Lines 205-206: the batch size. *)
Definition batch (m : Machine) : Z :=
  if NDPWORDS - 1 >? nWordsTotal m then nWordsTotal m else NDPWORDS - 1.

(** Lines 204-232: one mailbox batch. *)
Definition beamOff_drain (m : Machine) : Machine :=
  let nWords := batch m in
  let r := sd_to_dp (Z.to_nat nWords) (padd dpStartAddr 1) (currentSDAddr m)
             (store (mem m) dpStartAddr nWords) in
  let total := wrap32 (nWordsTotal m - nWords) in
  let m1 := set_nWordsTotal total (set_currentSDAddr (fst r) (set_mem (snd r) m)) in
  if total =? 0 then set_state READY m1 else m1.

Definition beamOffTransfer (dp_lev : Z) (m : Machine) : Machine :=
  if dp_lev =? 1 then m                     (* line 189 *)
  else beamOff_drain (beamOff_firstEntry m).

(** ** Interleaving

    [Poll]: the processor runs the next statement of the polling context.
    [IrqRaise lev]: the PIO interrupt is taken and the handler runs up to
    line 201 with [PIO_Get] returning [lev].  [IrqComplete]: the handler runs
    from line 204 to its return.  [HwWrite a v]: the other port of the
    dual-port RAM stores [v] at [a]. *)

Inductive Event : Type :=
  | Poll
  | IrqRaise (dp_lev : Z)
  | IrqComplete
  | HwWrite (addr value : Z).

Definition in_dp (a : Z) : bool :=
  (dpStartAddr <=? a) && (a <? dpStartAddr + DPSIZE).

Definition step (e : Event) (m : Machine) : Machine :=
  match e with
  | Poll => if in_handler m then m else poll m
  | IrqRaise lev =>
      if in_handler m then m
      else if lev =? 1 then m
      else set_in_handler true (beamOff_firstEntry m)
  | IrqComplete =>
      if in_handler m then set_in_handler false (beamOff_drain m) else m
  | HwWrite a v =>
      if in_dp a then set_mem (store (mem m) a v) m else m
  end.

Fixpoint run (evs : list Event) (m : Machine) : Machine :=
  match evs with
  | [] => m
  | e :: evs' => run evs' (step e m)
  end.

(** The headers of the records whose consumption completes (line 164 runs)
    during [evs]. *)
Definition completes (e : Event) (m : Machine) : bool :=
  match e, pc m with
  | Poll, L164 => negb (in_handler m)
  | _, _ => false
  end.

Fixpoint consumed (evs : list Event) (m : Machine) : list Z :=
  match evs with
  | [] => []
  | e :: evs' =>
      (if completes e m then [header m] else []) ++ consumed evs' (step e m)
  end.

(** The machine when [main] enters its loop (line 317): [state] has just been
    set to [READY], the other globals still hold their static initialisers. *)
Definition boot (mm : Mem) : Machine :=
  {| state := READY; nWordsTotal := 0;
     dpBankStartAddr := repeat 0 16%nat; dpBankLastAddr := repeat 0 16%nat;
     currentSDAddr := 0; mem := mm;
     pc := L320; init_i := 0; sdAddr := 0; currentDPBank := 0; header := 0;
     dpAddr := 0; nWords := 0; eventID := 0; i := 0; in_handler := false |}.

(** ** Observations

    Functions that read a machine; they are what the statements below are
    about. *)

(** What is waiting in the staging buffer, and the head of the mailbox. *)
Definition backlog (m : Machine) : list Z :=
  read_words (mem m) (currentSDAddr m) (Z.to_nat (nWordsTotal m)).

Definition mailbox (m : Machine) (len : nat) : list Z :=
  read_words (mem m) dpStartAddr len.

(** [k] consecutive handler invocations, each reading pin level [dp_lev]. *)
Fixpoint drain_calls (dp_lev : Z) (k : nat) (m : Machine) : Machine :=
  match k with
  | O => m
  | S k' => drain_calls dp_lev k' (beamOffTransfer dp_lev m)
  end.

(** The usable part of the mailbox ([NDPWORDS - 1] words after the count). *)
Definition usable : nat := Z.to_nat (NDPWORDS - 1).

(** The staging buffer's capacity in words. *)
Definition staging_capacity : Z := (sdEndAddr - sdStartAddr) / 4.

(** ** The ingest of one record, in one piece

    The payload loop of lines 145-153 as a function of its trip count; it
    returns the final [sdAddr], [dpAddr] and memory. *)
Fixpoint dp_to_sd (k : nat) (sd dp : Z) (mm : Mem) : Z * Z * Mem :=
  match k with
  | O => (sd, dp, mm)
  | S k' =>
      dp_to_sd k' (padd sd 1) (padd dp 1) (store mm sd (wrap32 (load mm dp + 1)))
  end.

(** What line 148 makes of a payload word. *)
Definition copy_word (w : Z) : Z := wrap32 (w + 1).

(** The machine as the payload loop leaves it after [k] trips. *)
Definition loop_exit (k : nat) (m : Machine) : Machine :=
  let r := dp_to_sd k (sdAddr m) (dpAddr m) (mem m) in
  set_i 0 (set_dpAddr (snd (fst r)) (set_sdAddr (fst (fst r)) (set_mem (snd r) m))).

(** The tables as [init] leaves them (its 67 steps run from boot). *)
Definition bank_start_table : list Z :=
  Eval vm_compute in dpBankStartAddr (poll_n 67 (boot (fun _ => 0))).

Definition bank_last_table : list Z :=
  Eval vm_compute in dpBankLastAddr (poll_n 67 (boot (fun _ => 0))).

Definition banks_ready (m : Machine) : Prop :=
  dpBankStartAddr m = bank_start_table /\ dpBankLastAddr m = bank_last_table.

(** ** Accounting along a spill *)

(** Lines 115-164: the body of the ingest loop. *)
Definition in_loop (l : Line) : bool :=
  match l with
  | L115 | L118 | L119 | L121 | L122 | L124 | L128 | L129 | L135 | L141
  | L145 | L146 | L148 | L156 | L160 | L161 | L164 => true
  | _ => false
  end.

(** Words of the record in hand that are staged already. *)
Definition progress (m : Machine) : Z :=
  match pc m with
  | L145 => 1
  | L146 | L148 => 1 + (wrap32 (nWords m - 1) - i m)
  | L156 => 1 + wrap32 (nWords m - 1)
  | L160 | L161 | L164 => 2 + wrap32 (nWords m - 1)
  | _ => 0
  end.

(** The lines at which [nWords] holds the length field of [header]. *)
Definition counted (l : Line) : bool :=
  match l with
  | L135 | L141 | L145 | L146 | L148 | L156 | L160 | L161 | L164 => true
  | _ => false
  end.

(** [word_count h + 1], summed over a list of headers. *)
Definition words_of (hs : list Z) : Z :=
  fold_right (fun h acc => word_count h + 1 + acc) 0 hs.

(** Events during which the beam stays on: the handler, if invoked at all,
    reads a high pin and returns at line 189. *)
Definition beam_on (e : Event) : bool :=
  match e with
  | IrqRaise lev => lev =? 1
  | _ => true
  end.

(** The ingest loop in [BOS] with [acc] words staged by completed records. *)
Definition ingesting (m : Machine) (acc : Z) : Prop :=
  state m = BOS /\ in_handler m = false /\ in_loop (pc m) = true /\
  nWordsTotal m = ptr_diff (padd sdStartAddr acc) sdStartAddr /\
  sdAddr m = padd sdStartAddr (acc + progress m) /\
  (counted (pc m) = true -> nWords m = word_count (header m)).

(** The machine as [beamOnTransfer] enters its loop (line 115) after [init]. *)
Definition fresh_spill (m : Machine) : Prop :=
  pc m = L115 /\ state m = BOS /\ in_handler m = false /\
  sdAddr m = sdStartAddr /\ nWordsTotal m = 0.

(** Steps of the polling context left before line 164 runs, for a machine
    that is working on a record. *)
Definition to_update (m : Machine) : Z :=
  match pc m with
  | L119 => 2 * word_count (header m) + 8
  | L128 => 2 * word_count (header m) + 7
  | L129 => 2 * word_count (header m) + 6
  | L135 => 2 * nWords m + 5
  | L141 => 2 * nWords m + 4
  | L145 => 2 * nWords m + 3
  | L146 => 2 * i m + 4
  | L148 => 2 * i m + 3
  | L156 => 3
  | L160 => 2
  | L161 => 1
  | _ => 0
  end.

Definition on_record (m : Machine) : Prop :=
  match pc m with
  | L119 | L128 | L129 => 1 <= word_count (header m)
  | L135 | L141 | L145 => 1 <= nWords m < 2 ^ 32
  | L146 => 0 <= i m < 2 ^ 32
  | L148 => 1 <= i m < 2 ^ 32
  | L156 | L160 | L161 | L164 => True
  | _ => False
  end.

(** ** The spill state machine *)

(** One move along the cycle [READY -> BOS -> EOS -> READY], or none. *)
Definition legal (a b : Z) : Prop :=
  a = b \/ (a = READY /\ b = BOS) \/ (a = BOS /\ b = EOS) \/ (a = EOS /\ b = READY).

(** [main] in its loop, about to test [state], which is [READY]; the
    processor is not in the handler. *)
Definition at_main_loop (m : Machine) : Prop :=
  pc m = L320 /\ state m = READY /\ in_handler m = false.

(** The lines of [init] up to the store [state = BOS]. *)
Definition before_beam (l : Line) : bool :=
  match l with
  | L79 | L80 | L81 | L83 | L84 | L87 | L91 | L94 => true
  | _ => false
  end.

Definition cycle_inv (m : Machine) : Prop :=
  (state m = BOS \/ state m = EOS \/ state m = READY) /\
  (before_beam (pc m) = true -> state m = READY) /\
  (in_handler m = true -> state m <> BOS).

(** The successive values of [state] along a run. *)
Fixpoint states (evs : list Event) (m : Machine) : list Z :=
  match evs with
  | [] => [state m]
  | e :: evs' => state m :: states evs' (step e m)
  end.

(** Consecutive repetitions removed. *)
Fixpoint changes (l : list Z) : list Z :=
  match l with
  | a :: ((b :: _) as l') => if a =? b then changes l' else a :: changes l'
  | _ => l
  end.

(** ** Concrete scenarios *)

Definition zero_mem : Mem := fun _ => 0.

(** Base address of bank [k], and the hardware filling it: payload words
    first, then the event tag at word [NWORDSPERBANK - 3], the header last. *)
Definition bank (k : Z) : Z := dpStartAddr + k * (4 * NWORDSPERBANK).

Fixpoint hw_words (a : Z) (ws : list Z) : list Event :=
  match ws with
  | [] => []
  | w :: ws' => HwWrite a w :: hw_words (a + 4) ws'
  end.

Definition fill_bank (k hdr : Z) (payload : list Z) (tag : Z) : list Event :=
  hw_words (bank k + 4) payload ++
  [HwWrite (bank k + 4 * (NWORDSPERBANK - 3)) tag; HwWrite (bank k) hdr].

(** A header whose length field is [n]. *)
Definition header_of_count (n : Z) : Z := Z.shiftl n 20.

(** From boot: [init] runs (67 steps), the hardware fills bank 1 with a
    record of word count 2 (payload [6], tag [9]), and the ingest loop
    consumes it and is back at line 115. *)
Definition spill_one_record : list Event :=
  repeat Poll 67 ++ fill_bank 1 (header_of_count 2) [6] 9 ++ repeat Poll 20.

Definition after_one_record : Machine := run spill_one_record (boot zero_mem).

(** Bank 0 filled with a one-word record (tag [9]); boot memory holds
    [0xdead] at address 0. *)
Definition marked_mem : Mem := fun a => if a =? 0 then 0xdead else 0.

Definition spill_bank0 : list Event :=
  repeat Poll 67 ++ fill_bank 0 (header_of_count 1) [] 9 ++ repeat Poll 14.

(** The staging buffer exactly full ([sdAddr = sdEndAddr]) and bank 1
    holding a one-word record: the state a long enough spill arrives at. *)
Definition staging_full : Machine :=
  set_nWordsTotal staging_capacity
    (set_sdAddr sdEndAddr
       (run (repeat Poll 67 ++ fill_bank 1 (header_of_count 1) [] 9 ++ repeat Poll 2)
          (boot zero_mem))).

(** Bank 1 holding a header that encodes 1026 words, more than a bank has;
    bank 2 holding a record of its own. *)
Definition spill_oversized : list Event :=
  repeat Poll 67 ++ fill_bank 2 (header_of_count 3) [5; 5] 8
    ++ fill_bank 1 (header_of_count 1026) [] 9 ++ repeat Poll 2068.

(** All banks empty; the interrupt arrives (pin low) while the ingest loop
    scans, and the loop then runs on. *)
Definition spill_interrupted : list Event :=
  repeat Poll 67 ++ repeat Poll 5 ++ [IrqRaise 0; IrqComplete] ++ repeat Poll 10.

(** After [init], with bank 0 holding a record of word count 2 and the
    ingest loop about to read its header (line 118). *)
Definition at_full_bank0 : Machine :=
  run (repeat Poll 67 ++ fill_bank 0 (header_of_count 2) [6] 9 ++ repeat Poll 2)
    (boot marked_mem).


(** After [init]: the ingest loop at line 115 with nothing staged. *)
Definition spill_start : Machine := run (repeat Poll 68) (boot zero_mem).


(** A whole spill: [init], one record ingested, the handler run once with
    the pin low, and the polling context carrying on into the next spill. *)
Definition one_spill : list Event :=
  spill_one_record ++ [IrqRaise 0; IrqComplete] ++ repeat Poll 72.

(** ** Further observations *)

(** The handler's state after [k] runs on a backlog of [n] words. *)
Definition drained_state (n : Z) (k : nat) : Z :=
  if n <=? Z.of_nat k * (NDPWORDS - 1) then READY else EOS.

(** Address of the event tag of bank [k]: word [NWORDSPERBANK - 3]. *)
Definition bank_tag (k : Z) : Z := bank k + 4 * (NWORDSPERBANK - 3).

(** Entries below [j] of the two tables hold what [init] gives them; entry 0
    of [dpBankLastAddr] is not among them. *)
Definition filled (m : Machine) (j : Z) : Prop :=
  forall k, 0 <= k < j ->
    tbl_get (dpBankStartAddr m) k = bank k /\
    (1 <= k -> tbl_get (dpBankLastAddr m) k = bank_tag k).

(** What holds of the tables, of [init]'s loop variable and of the bank
    cursor at each line. *)
Definition tables_inv (m : Machine) : Prop :=
  length (dpBankStartAddr m) = 16%nat /\
  length (dpBankLastAddr m) = 16%nat /\
  tbl_get (dpBankLastAddr m) 0 = 0 /\
  match pc m with
  | L320 | L79 => True
  | L80 => tbl_get (dpBankStartAddr m) 0 = dpStartAddr
  | L81 => 1 <= init_i m <= 16 /\ filled m (init_i m)
  | L83 => 1 <= init_i m < 16 /\ filled m (init_i m)
  | L84 => 1 <= init_i m < 16 /\ filled m (init_i m) /\
           tbl_get (dpBankStartAddr m) (init_i m) = bank (init_i m)
  | L87 => 1 <= init_i m < 16 /\ filled m (init_i m + 1)
  | L91 | L94 | L99 | L113 | L173 => filled m 16
  | _ => filled m 16 /\ 0 <= currentDPBank m < 16
  end.

(** Lines 115-124: the loop head and the scan for a full bank. *)
Definition scanning (l : Line) : bool :=
  match l with
  | L115 | L118 | L119 | L121 | L122 | L124 => true
  | _ => false
  end.

(** The cursor update of lines 121 and 161. *)
Definition next_bank (c : Z) : Z := Z.land (c + 1) BANKIDMASK.

(** The scan with every bank empty: nothing has moved since [m0]. *)
Definition idle (m0 m : Machine) : Prop :=
  scanning (pc m) = true /\ mem m = mem m0 /\ state m = BOS /\
  nWordsTotal m = nWordsTotal m0 /\ sdAddr m = sdAddr m0 /\
  banks_ready m /\ 0 <= currentDPBank m < 16 /\
  (pc m = L119 \/ pc m = L124 -> header m = 0).

(** The write cursor's account, whatever [state] and the handler do: [acc]
    words staged by completed records, [progress m] by the one in hand. *)
Definition cursor_inv (m : Machine) (acc : Z) : Prop :=
  in_loop (pc m) = true /\
  sdAddr m = padd sdStartAddr (acc + progress m) /\
  (counted (pc m) = true -> nWords m = word_count (header m)).

(** The polling context is inside the ingest loop at every point of the run. *)
Fixpoint stays_in_loop (evs : list Event) (m : Machine) : bool :=
  in_loop (pc m) &&
  match evs with
  | [] => true
  | e :: evs' => stays_in_loop evs' (step e m)
  end.

(** One record ingested, a second one half copied when the handler runs
    (pin low), and the polling context then on its way to line 164. *)
Definition drained_mid_record : list Event :=
  fill_bank 1 (header_of_count 2) [6] 9 ++ repeat Poll 19 ++
  fill_bank 2 (header_of_count 3) [5; 5] 8 ++ repeat Poll 8 ++
  [IrqRaise 0; IrqComplete] ++ repeat Poll 8.

(** From the start of a spill: bank 1 filled with a two-word record (payload
    [6], tag [9]) and ingested; the loop is back at line 115. *)
Definition one_record_staged : list Event :=
  fill_bank 1 (header_of_count 2) [6] 9 ++ repeat Poll 19.

(** [main] waiting at line 320 while [state] is not [READY]: since [m0]
    nothing but the dual-port RAM has changed. *)
Definition waiting (m0 m : Machine) : Prop :=
  pc m = L320 /\ in_handler m = false /\ state m = state m0 /\
  nWordsTotal m = nWordsTotal m0 /\ currentSDAddr m = currentSDAddr m0 /\
  sdAddr m = sdAddr m0 /\
  dpBankStartAddr m = dpBankStartAddr m0 /\ dpBankLastAddr m = dpBankLastAddr m0 /\
  (forall a, in_dp a = false -> mem m a = mem m0 a).

(** A spill whose drain is pending: one record ingested, the handler's
    first-entry block run, its batch not yet. *)
Definition drain_pending : Machine :=
  set_pc L320 (set_in_handler false
    (run (one_record_staged ++ [IrqRaise 0]) spill_start)).

(** The same with 40960 words on the count: more than one mailbox batch. *)
Definition drain_pending_long : Machine := set_nWordsTotal 40960 drain_pending.

(** Handler runs that read level [lev], each after a stretch [q] of other
    events. *)
Definition drain_schedule (lev : Z) (qs : list (list Event)) : list Event :=
  concat (map (fun q => q ++ [IrqRaise lev; IrqComplete]) qs).

(** * Words, pointers and memory: basic facts *)

Lemma wrap32_range x : 0 <= wrap32 x < 2 ^ 32.
Proof. unfold wrap32. apply Z.mod_pos_bound. reflexivity. Qed.

Lemma wrap32_small x : 0 <= x < 2 ^ 32 -> wrap32 x = x.
Proof. intros H. unfold wrap32. now apply Z.mod_small. Qed.

Lemma wrap32_idem x : wrap32 (wrap32 x) = wrap32 x.
Proof. apply wrap32_small, wrap32_range. Qed.

Lemma padd_small p k : 0 <= p + 4 * k < 2 ^ 32 -> padd p k = p + 4 * k.
Proof. intros H. unfold padd. now apply wrap32_small. Qed.

Lemma padd_padd p j k : padd (padd p j) k = padd p (j + k).
Proof.
  unfold padd, wrap32. rewrite Zplus_mod_idemp_l. f_equal. lia.
Qed.

Lemma ptr_diff_padd b k :
  0 <= k < 2 ^ 29 -> ptr_diff (padd b k) b = k.
Proof.
  intros Hk. unfold ptr_diff, sint32, padd, wrap32.
  rewrite Zminus_mod_idemp_l.
  replace (b + 4 * k - b) with (4 * k) by lia.
  assert (H4 : (4 * k) mod 2 ^ 32 = 4 * k) by (apply Z.mod_small; lia).
  rewrite H4.
  destruct (4 * k <? 2 ^ 31) eqn:E; [| apply Z.ltb_ge in E; lia].
  replace (4 * k) with (k * 4) by lia. rewrite Z.div_mul by lia.
  apply Z.mod_small. lia.
Qed.

Lemma load_store_same mm a v : load (store mm a v) a = wrap32 v.
Proof. unfold load, store. now rewrite Z.eqb_refl. Qed.

Lemma load_store_other mm a v a' : a' <> a -> load (store mm a v) a' = load mm a'.
Proof.
  intros H. unfold load, store.
  destruct (a' =? a) eqn:E; [apply Z.eqb_eq in E; contradiction | reflexivity].
Qed.

Lemma read_words_length mm a len : length (read_words mm a len) = len.
Proof. revert a. induction len; intros; simpl; [reflexivity | now rewrite IHlen]. Qed.

(** Two memories that agree word by word on two (non-wrapping) ranges read
    the same list there. *)
Lemma read_words_ext m1 m2 len : forall a b,
  0 <= a -> a + 4 * Z.of_nat len < 2 ^ 32 ->
  0 <= b -> b + 4 * Z.of_nat len < 2 ^ 32 ->
  (forall k, 0 <= k < Z.of_nat len -> load m1 (a + 4 * k) = load m2 (b + 4 * k)) ->
  read_words m1 a len = read_words m2 b len.
Proof.
  induction len as [| len IH]; intros a b Ha Ha' Hb Hb' H; [reflexivity |].
  simpl read_words.
  rewrite !padd_small by lia.
  f_equal.
  - specialize (H 0). rewrite !Z.add_0_r in H. apply H. lia.
  - apply IH; try lia.
    intros k Hk. specialize (H (k + 1)).
    replace (a + 4 * 1 + 4 * k) with (a + 4 * (k + 1)) by lia.
    replace (b + 4 * 1 + 4 * k) with (b + 4 * (k + 1)) by lia.
    apply H. lia.
Qed.

(** * Stepping the polling context *)

Lemma poll_n_add a : forall b m, poll_n (a + b) m = poll_n b (poll_n a m).
Proof. induction a as [| a IH]; intros b m; [reflexivity | apply IH]. Qed.

Lemma poll_n_S k m : poll_n (S k) m = poll_n k (poll m).
Proof. reflexivity. Qed.

Lemma poll_n_O m : poll_n O m = m.
Proof. reflexivity. Qed.

Lemma poll_at l m : pc m = l -> poll m = exec l m.
Proof. intros <-. reflexivity. Qed.

Lemma poll_L146_more m :
  pc m = L146 -> i m <> 0 -> poll m = goto L148 m.
Proof.
  intros Hpc Hi. rewrite (poll_at L146) by assumption. cbn [exec].
  destruct (Z.eqb_spec (i m) 0); [contradiction | reflexivity].
Qed.

Lemma poll_L146_done m :
  pc m = L146 -> i m = 0 -> poll m = goto L156 m.
Proof.
  intros Hpc Hi. rewrite (poll_at L146) by assumption. cbn [exec].
  rewrite Hi. reflexivity.
Qed.

Lemma poll_L119_full m :
  pc m = L119 -> header m <> 0 -> poll m = goto L128 m.
Proof.
  intros Hpc Hh. rewrite (poll_at L119) by assumption. cbn [exec].
  destruct (Z.eqb_spec (header m) 0); [contradiction | reflexivity].
Qed.

(** Projections of a machine built by setters. *)
Ltac fields :=
  cbn [state nWordsTotal dpBankStartAddr dpBankLastAddr currentSDAddr mem pc init_i
       sdAddr currentDPBank header dpAddr nWords eventID i in_handler
       set_state set_nWordsTotal set_dpBankStartAddr set_dpBankLastAddr
       set_currentSDAddr set_mem set_pc set_init_i set_sdAddr set_currentDPBank
       set_header set_dpAddr set_nWords set_eventID set_i set_in_handler goto].

Lemma poll_n_step l k m : pc m = l -> poll_n (S k) m = poll_n k (exec l m).
Proof. intros <-. reflexivity. Qed.

(** One step of the polling context at a known line. *)
Ltac poll1 l :=
  rewrite (poll_n_step l) by reflexivity; cbn [exec]; fields.

(** * The drain handler *)

Lemma batch_min m : batch m = Z.min (NDPWORDS - 1) (nWordsTotal m).
Proof.
  unfold batch. destruct (NDPWORDS - 1 >? nWordsTotal m) eqn:E.
  - apply Z.gtb_lt in E. lia.
  - rewrite Z.gtb_ltb in E. apply Z.ltb_ge in E. lia.
Qed.

Lemma batch_firstEntry m : batch (beamOff_firstEntry m) = batch m.
Proof. unfold batch, beamOff_firstEntry. now destruct (state m =? BOS). Qed.

Lemma sd_to_dp_spec n : forall d c mm,
  0 <= d -> d + 4 * Z.of_nat n < 2 ^ 32 ->
  0 <= c -> c + 4 * Z.of_nat n < 2 ^ 32 ->
  c + 4 * Z.of_nat n <= d \/ d + 4 * Z.of_nat n <= c ->
  fst (sd_to_dp n d c mm) = c + 4 * Z.of_nat n /\
  (forall k, 0 <= k < Z.of_nat n ->
     load (snd (sd_to_dp n d c mm)) (d + 4 * k) = load mm (c + 4 * k)) /\
  (forall a, a < d \/ d + 4 * Z.of_nat n <= a -> snd (sd_to_dp n d c mm) a = mm a).
Proof.
  induction n as [| n IH]; intros d c mm Hd Hd' Hc Hc' Hdis.
  - simpl. split; [lia | split; [intros; lia | reflexivity]].
  - cbn [sd_to_dp]. rewrite !padd_small by lia.
    destruct (IH (d + 4 * 1) (c + 4 * 1) (store mm d (load mm c)))
      as (Hf & Hk & Ha); try lia.
    split; [| split].
    + rewrite Hf. lia.
    + intros k Hk0. destruct (Z.eq_dec k 0) as [-> | Hne].
      * rewrite !Z.add_0_r. unfold load at 1. rewrite Ha by lia.
        fold (load (store mm d (load mm c)) d).
        rewrite load_store_same. apply wrap32_idem.
      * replace (d + 4 * k) with (d + 4 * 1 + 4 * (k - 1)) by lia.
        rewrite Hk by lia. rewrite load_store_other by lia. f_equal. lia.
    + intros a Hout. rewrite Ha by lia. unfold store.
      destruct (a =? d) eqn:E; [apply Z.eqb_eq in E; lia | reflexivity].
Qed.

(** One batch, for a read range that lies in the staging buffer. *)
Lemma beamOff_drain_spec m :
  0 <= nWordsTotal m < 2 ^ 32 ->
  sdStartAddr <= currentSDAddr m ->
  currentSDAddr m + 4 * batch m <= sdEndAddr ->
  let m' := beamOff_drain m in
  load (mem m') dpStartAddr = batch m /\
  (forall k, 0 <= k < batch m ->
     load (mem m') (dpStartAddr + 4 * (k + 1)) = load (mem m) (currentSDAddr m + 4 * k)) /\
  (forall a, a < dpStartAddr \/ dpStartAddr + DPSIZE <= a -> mem m' a = mem m a) /\
  currentSDAddr m' = currentSDAddr m + 4 * batch m /\
  nWordsTotal m' = nWordsTotal m - batch m /\
  state m' = (if nWordsTotal m - batch m =? 0 then READY else state m).
Proof.
  intros Hn Hlo Hhi.
  assert (Hb : 0 <= batch m <= NDPWORDS - 1 /\ batch m <= nWordsTotal m)
    by (rewrite batch_min; unfold NDPWORDS; lia).
  assert (Hw : wrap32 (nWordsTotal m - batch m) = nWordsTotal m - batch m)
    by (apply wrap32_small; lia).
  unfold sdStartAddr, sdEndAddr, NDPWORDS in *.
  destruct (sd_to_dp_spec (Z.to_nat (batch m)) (padd dpStartAddr 1) (currentSDAddr m)
              (store (mem m) dpStartAddr (batch m))) as (Hf & Hk & Ha).
  1-5: rewrite ?padd_small; unfold dpStartAddr; rewrite ?Z2Nat.id; lia.
  rewrite Z2Nat.id in * by lia.
  rewrite padd_small in Hk, Ha by (unfold dpStartAddr; lia).
  assert (Hm : mem (beamOff_drain m) =
               snd (sd_to_dp (Z.to_nat (batch m)) (padd dpStartAddr 1) (currentSDAddr m)
                      (store (mem m) dpStartAddr (batch m)))).
  { unfold beamOff_drain. fold (batch m).
    destruct (wrap32 (nWordsTotal m - batch m) =? 0); reflexivity. }
  cbv zeta. split; [| split; [| split; [| split; [| split]]]].
  - unfold load. rewrite Hm, Ha by lia. unfold store. rewrite Z.eqb_refl.
    apply wrap32_small. lia.
  - intros k Hk0. rewrite Hm.
    replace (dpStartAddr + 4 * (k + 1)) with (dpStartAddr + 4 * 1 + 4 * k) by lia.
    rewrite Hk by lia. apply load_store_other. unfold dpStartAddr. lia.
  - intros a Hout. rewrite Hm. unfold dpStartAddr, DPSIZE in *.
    rewrite Ha by lia. unfold store.
    destruct (a =? 1342177280) eqn:E; [apply Z.eqb_eq in E; lia | reflexivity].
  - unfold beamOff_drain. fold (batch m).
    destruct (wrap32 (nWordsTotal m - batch m) =? 0); simpl; exact Hf.
  - unfold beamOff_drain. fold (batch m).
    destruct (wrap32 (nWordsTotal m - batch m) =? 0); simpl; exact Hw.
  - unfold beamOff_drain. fold (batch m). rewrite Hw.
    destruct (nWordsTotal m - batch m =? 0); reflexivity.
Qed.

(** C2.  A handler invocation that passes the level check (line 189) takes
    [n = min (NDPWORDS - 1) nWordsTotal], stores [n] in the first word of the
    mailbox, copies the [n] words at the read cursor into the words after it,
    advances the cursor and lowers [nWordsTotal] by [n], and stores [READY]
    in [state] exactly when the count has reached 0. *)
Theorem beamOffTransfer_batch dp_lev m :
  dp_lev <> 1 ->
  0 <= nWordsTotal m < 2 ^ 32 ->
  let m1 := beamOff_firstEntry m in
  let n := Z.min (NDPWORDS - 1) (nWordsTotal m) in
  sdStartAddr <= currentSDAddr m1 ->
  currentSDAddr m1 + 4 * n <= sdEndAddr ->
  let m' := beamOffTransfer dp_lev m in
  load (mem m') dpStartAddr = n /\
  read_words (mem m') (padd dpStartAddr 1) (Z.to_nat n) =
    read_words (mem m) (currentSDAddr m1) (Z.to_nat n) /\
  currentSDAddr m' = currentSDAddr m1 + 4 * n /\
  nWordsTotal m' = nWordsTotal m - n /\
  (nWordsTotal m' = 0 -> state m' = READY) /\
  (nWordsTotal m' <> 0 -> state m' = state m1) /\
  (state m <> READY -> (state m' = READY <-> nWordsTotal m' = 0)).
Proof.
  intros Hlev Hn m1 n Hlo Hhi m'.
  assert (Hm' : m' = beamOff_drain m1).
  { unfold m', beamOffTransfer. destruct (dp_lev =? 1) eqn:E; [| reflexivity].
    apply Z.eqb_eq in E. contradiction. }
  assert (Hn1 : nWordsTotal m1 = nWordsTotal m)
    by (unfold m1, beamOff_firstEntry; now destruct (state m =? BOS)).
  assert (Hmem1 : mem m1 = mem m)
    by (unfold m1, beamOff_firstEntry; now destruct (state m =? BOS)).
  assert (Hb : batch m1 = n) by (unfold m1, n; now rewrite batch_firstEntry, batch_min).
  assert (Hnn : 0 <= n <= NDPWORDS - 1) by (unfold n, NDPWORDS; lia).
  destruct (beamOff_drain_spec m1) as (H1 & H2 & _ & H4 & H5 & H6);
    rewrite ?Hn1, ?Hb; try assumption.
  rewrite <- Hm' in *. rewrite Hb, ?Hn1, ?Hmem1 in *.
  assert (Hst1 : state m <> READY -> state m1 <> READY).
  { unfold m1, beamOff_firstEntry. destruct (state m =? BOS); [discriminate | auto]. }
  unfold sdStartAddr, sdEndAddr, NDPWORDS in *.
  split; [exact H1 | split; [| split; [exact H4 | split; [exact H5 |]]]].
  - apply read_words_ext; rewrite ?padd_small; unfold dpStartAddr;
      rewrite ?Z2Nat.id; try lia.
    intros k Hk. specialize (H2 k Hk). unfold dpStartAddr in H2.
    rewrite <- H2. f_equal. lia.
  - rewrite H5, H6. destruct (Z.eqb_spec (nWordsTotal m - n) 0) as [E | E].
    + split; [reflexivity | split; [contradiction | intros _; split; auto]].
    + split; [contradiction | split; [reflexivity |]].
      intros Hr. specialize (Hst1 Hr). split; [contradiction | contradiction].
Qed.

Lemma beamOffTransfer_batch_witness :
  load (mem (beamOffTransfer 0 after_one_record)) dpStartAddr = 3 /\
  read_words (mem (beamOffTransfer 0 after_one_record)) (padd dpStartAddr 1) 3 =
    [header_of_count 2; 7; 9] /\
  nWordsTotal (beamOffTransfer 0 after_one_record) = 0 /\
  state (beamOffTransfer 0 after_one_record) = READY.
Proof.
  assert (Hlev : 0 <> 1) by lia.
  assert (Hn : 0 <= nWordsTotal after_one_record < 2 ^ 32) by (vm_compute; split; congruence).
  assert (Hlo : sdStartAddr <= currentSDAddr (beamOff_firstEntry after_one_record))
    by (vm_compute; congruence).
  assert (Hhi : currentSDAddr (beamOff_firstEntry after_one_record) +
                4 * Z.min (NDPWORDS - 1) (nWordsTotal after_one_record) <= sdEndAddr)
    by (vm_compute; congruence).
  destruct (beamOffTransfer_batch 0 after_one_record Hlev Hn Hlo Hhi)
    as (H1 & H2 & _ & H4 & H5 & _).
  split; [exact H1 | split; [| split; [exact H4 | exact (H5 H4)]]].
  refine (eq_trans H2 _). vm_compute. reflexivity.
Defined.

(** C3.  What the level check of line 189 does.  With the level read as 1
    (pin high, as a rising edge leaves it) the handler returns at once, for
    every machine.  With any other level read (the line has fallen) it does
    not return: from [BOS] it moves [state] on to [EOS] or [READY], and a
    non-zero count is lowered to [max 0 (n - (NDPWORDS - 1))].  After one
    ingested record ([BOS], 3 words) a call that reads level 0 leaves
    [READY] and no word staged. *)
Theorem beamOffTransfer_acts_on_low_level :
  (forall m, beamOffTransfer 1 m = m) /\
  (forall lev m,
     lev <> 1 -> state m = BOS ->
     state (beamOffTransfer lev m) = EOS \/ state (beamOffTransfer lev m) = READY) /\
  (forall lev m,
     lev <> 1 -> 0 < nWordsTotal m < 2 ^ 32 ->
     nWordsTotal (beamOffTransfer lev m) =
       Z.max 0 (nWordsTotal m - (NDPWORDS - 1)) /\
     nWordsTotal (beamOffTransfer lev m) < nWordsTotal m) /\
  (state after_one_record = BOS /\
   nWordsTotal after_one_record = 3 /\
   state (beamOffTransfer 0 after_one_record) = READY /\
   nWordsTotal (beamOffTransfer 0 after_one_record) = 0).
Proof.
  split; [reflexivity | split; [| split]].
  - intros lev m Hlev Hst. unfold beamOffTransfer.
    destruct (Z.eqb_spec lev 1); [contradiction |].
    unfold beamOff_firstEntry. rewrite Hst. cbn [Z.eqb BOS].
    unfold beamOff_drain. destruct (wrap32 _ =? 0); fields; [right | left]; reflexivity.
  - intros lev m Hlev Hn. unfold beamOffTransfer.
    destruct (Z.eqb_spec lev 1); [contradiction |].
    assert (Hb : batch (beamOff_firstEntry m) = Z.min (NDPWORDS - 1) (nWordsTotal m))
      by (rewrite batch_firstEntry; apply batch_min).
    assert (Hn1 : nWordsTotal (beamOff_firstEntry m) = nWordsTotal m)
      by (unfold beamOff_firstEntry; now destruct (state m =? BOS)).
    assert (Hnt : nWordsTotal (beamOff_drain (beamOff_firstEntry m)) =
                  nWordsTotal m - Z.min (NDPWORDS - 1) (nWordsTotal m)).
    { unfold beamOff_drain. rewrite Hn1, Hb.
      destruct (wrap32 _ =? 0); fields; apply wrap32_small; unfold NDPWORDS; lia. }
    rewrite Hnt. unfold NDPWORDS. lia.
  - vm_compute. repeat split.
Qed.

(** * Draining in batches *)

Lemma read_words_firstn mm c : forall n a,
  (c <= n)%nat -> firstn c (read_words mm a n) = read_words mm a c.
Proof.
  induction c as [| c IH]; intros n a Hc; [reflexivity |].
  destruct n as [| n]; [lia |].
  simpl. f_equal. apply IH. lia.
Qed.

Lemma read_words_skipn mm c : forall n a,
  (c <= n)%nat -> 0 <= a -> a + 4 * Z.of_nat n < 2 ^ 32 ->
  skipn c (read_words mm a n) = read_words mm (a + 4 * Z.of_nat c) (n - c).
Proof.
  induction c as [| c IH]; intros n a Hc Ha Ha'.
  - simpl. rewrite Z.add_0_r, Nat.sub_0_r. reflexivity.
  - destruct n as [| n]; [lia |].
    cbn [read_words skipn]. rewrite padd_small by lia.
    rewrite IH by lia. cbn [Nat.sub]. f_equal. lia.
Qed.

Lemma word_count_spec h : word_count h = (h / 2 ^ 20) mod 2 ^ 11.
Proof.
  unfold word_count, NWORDSMASK.
  change 0x7ff00000 with (Z.shiftl (Z.ones 11) 20).
  rewrite Z.shiftr_land, Z.shiftr_shiftl_l by lia.
  change (20 - 20) with 0. rewrite Z.shiftl_0_r, Z.land_ones by lia.
  now rewrite Z.shiftr_div_pow2 by lia.
Qed.

Lemma word_count_range h : 0 <= word_count h < 2048.
Proof.
  rewrite word_count_spec. change 2048 with (2 ^ 11).
  apply Z.mod_pos_bound. reflexivity.
Qed.

Lemma word_count_header_of_count n : 0 <= n < 2048 -> word_count (header_of_count n) = n.
Proof.
  intros Hn. rewrite word_count_spec. unfold header_of_count.
  rewrite Z.shiftl_mul_pow2, Z.div_mul by lia. apply Z.mod_small. lia.
Qed.

Lemma firstEntry_not_BOS m : state m <> BOS -> beamOff_firstEntry m = m.
Proof.
  intros H. unfold beamOff_firstEntry.
  destruct (Z.eqb_spec (state m) BOS); [contradiction | reflexivity].
Qed.

(** One handler run on a backlog that lies in the staging buffer: the
    mailbox receives the count and the first [c] words of the backlog, the
    rest stays staged, and the machine is again as this lemma needs it. *)
Lemma beamOffTransfer_once dp_lev m :
  dp_lev <> 1 ->
  0 <= nWordsTotal m < 2 ^ 32 ->
  let m1 := beamOff_firstEntry m in
  sdStartAddr <= currentSDAddr m1 ->
  currentSDAddr m1 + 4 * nWordsTotal m <= sdEndAddr ->
  let m' := beamOffTransfer dp_lev m in
  let c := Z.to_nat (Z.min (NDPWORDS - 1) (nWordsTotal m)) in
  mailbox m' (S c) = Z.of_nat c :: firstn usable (backlog m1) /\
  backlog m' = skipn usable (backlog m1) /\
  length (firstn usable (backlog m1)) = c /\
  state m' <> BOS /\
  0 <= nWordsTotal m' < 2 ^ 32 /\
  sdStartAddr <= currentSDAddr m' /\
  currentSDAddr m' + 4 * nWordsTotal m' <= sdEndAddr.
Proof.
  intros Hlev Hn m1 Hlo Hhi m' c.
  assert (Hn1 : nWordsTotal m1 = nWordsTotal m)
    by (unfold m1, beamOff_firstEntry; now destruct (state m =? BOS)).
  assert (Hmem1 : mem m1 = mem m)
    by (unfold m1, beamOff_firstEntry; now destruct (state m =? BOS)).
  assert (Hst1 : state m1 <> BOS).
  { unfold m1, beamOff_firstEntry. destruct (Z.eqb_spec (state m) BOS);
      [discriminate | assumption]. }
  assert (Hm' : m' = beamOff_drain m1).
  { unfold m', beamOffTransfer. destruct (Z.eqb_spec dp_lev 1);
      [contradiction | reflexivity]. }
  assert (Hb : batch m1 = Z.of_nat c)
    by (unfold m1, c; rewrite batch_firstEntry, batch_min, Z2Nat.id; unfold NDPWORDS; lia).
  assert (Hc : Z.of_nat c = Z.min (NDPWORDS - 1) (nWordsTotal m))
    by (unfold c; rewrite Z2Nat.id; unfold NDPWORDS; lia).
  destruct (beamOff_drain_spec m1) as (H1 & H2 & H3 & H4 & H5 & H6);
    rewrite ?Hn1, ?Hb; try assumption; [lia |].
  rewrite <- Hm', ?Hb, ?Hn1 in *.
  assert (Hlen : length (backlog m1) = Z.to_nat (nWordsTotal m))
    by (unfold backlog; now rewrite read_words_length, Hn1).
  assert (Hcl : (c <= Z.to_nat (nWordsTotal m))%nat) by lia.
  assert (Hfirst : firstn usable (backlog m1) = read_words (mem m1) (currentSDAddr m1) c).
  { unfold backlog. rewrite Hn1. unfold usable.
    destruct (Z.le_gt_cases (NDPWORDS - 1) (nWordsTotal m)) as [Hge | Hlt].
    - replace (Z.to_nat (NDPWORDS - 1)) with c by lia.
      now apply read_words_firstn.
    - rewrite firstn_all2 by (rewrite read_words_length; lia).
      f_equal. lia. }
  unfold sdStartAddr, sdEndAddr, NDPWORDS, DPSIZE in *.
  split; [| split; [| split; [| split; [| split; [| split]]]]].
  - rewrite Hfirst. unfold mailbox. cbn [read_words]. f_equal; [exact H1 |].
    apply read_words_ext; rewrite ?padd_small; unfold dpStartAddr; try lia.
    intros k Hk. specialize (H2 k Hk). unfold dpStartAddr in H2.
    rewrite <- H2. f_equal. lia.
  - unfold backlog at 1. rewrite H4, H5. unfold backlog, usable, NDPWORDS. rewrite Hn1.
    destruct (Z.le_gt_cases 32767 (nWordsTotal m)) as [Hge | Hlt].
    + rewrite read_words_skipn by lia.
      replace (Z.to_nat (nWordsTotal m - Z.of_nat c))
        with (Z.to_nat (nWordsTotal m) - Z.to_nat (32768 - 1))%nat by lia.
      replace (Z.of_nat (Z.to_nat (32768 - 1))) with (Z.of_nat c) by lia.
      apply read_words_ext; try lia.
      intros k Hk. unfold load. rewrite H3; [reflexivity |].
      unfold dpStartAddr. lia.
    + rewrite skipn_all2 by (rewrite read_words_length; lia).
      replace (Z.to_nat (nWordsTotal m - Z.of_nat c)) with 0%nat by lia.
      reflexivity.
  - rewrite Hfirst. apply read_words_length.
  - rewrite H6. destruct (nWordsTotal m - Z.of_nat c =? 0); [discriminate | assumption].
  - rewrite H5. lia.
  - rewrite H4. lia.
  - rewrite H4, H5. lia.
Qed.

Lemma drain_calls_chunks dp_lev k : forall m,
  dp_lev <> 1 ->
  0 <= nWordsTotal m < 2 ^ 32 ->
  sdStartAddr <= currentSDAddr (beamOff_firstEntry m) ->
  currentSDAddr (beamOff_firstEntry m) + 4 * nWordsTotal m <= sdEndAddr ->
  let ws := backlog (beamOff_firstEntry m) in
  let chunk := firstn usable (skipn (k * usable) ws) in
  mailbox (drain_calls dp_lev (S k) m) (S (length chunk)) =
    Z.of_nat (length chunk) :: chunk /\
  backlog (drain_calls dp_lev (S k) m) = skipn (S k * usable) ws.
Proof.
  induction k as [| k IH]; intros m Hlev Hn Hlo Hhi ws chunk;
    destruct (beamOffTransfer_once dp_lev m Hlev Hn Hlo Hhi)
      as (Hmb & Hbl & Hlen & Hst & Hn' & Hlo' & Hhi').
  - cbn [drain_calls]. unfold chunk, ws. cbn [Nat.mul skipn].
    rewrite Hlen, Nat.add_0_r. split; [exact Hmb | exact Hbl].
  - cbn [drain_calls].
    pose proof (firstEntry_not_BOS _ Hst) as Hfe.
    specialize (IH (beamOffTransfer dp_lev m) Hlev Hn').
    rewrite Hfe in IH. specialize (IH Hlo' Hhi'). cbv zeta in IH.
    rewrite Hbl, !skipn_skipn in IH.
    unfold chunk, ws.
    replace (S k * usable)%nat with (k * usable + usable)%nat by lia.
    replace (S (S k) * usable)%nat with (S k * usable + usable)%nat by lia.
    exact IH.
Qed.

(** C5, as the code has it.  Successive handler runs hand the backlog over
    in order, [usable = NDPWORDS - 1] words at a time: the [k]-th run writes
    the count of the words it delivers and then those words, and what it did
    not deliver stays staged for the next run.  A framed record
    [h :: p ++ [f]] whose header encodes [n] (so [p] has [n - 1] words) that
    is alone in the backlog arrives as [n + 1 :: h :: p ++ [f]]: the first
    word counts the [n + 1] words that follow it. *)
Theorem mailbox_round_trip dp_lev m :
  dp_lev <> 1 ->
  0 <= nWordsTotal m < 2 ^ 32 ->
  let m1 := beamOff_firstEntry m in
  sdStartAddr <= currentSDAddr m1 ->
  currentSDAddr m1 + 4 * nWordsTotal m <= sdEndAddr ->
  (forall k,
     let chunk := firstn usable (skipn (k * usable) (backlog m1)) in
     let mk := drain_calls dp_lev (S k) m in
     mailbox mk (S (length chunk)) = Z.of_nat (length chunk) :: chunk /\
     (length chunk <= usable)%nat /\
     backlog mk = skipn (S k * usable) (backlog m1)) /\
  (forall h p f,
     backlog m1 = h :: p ++ [f] ->
     Z.of_nat (length p) = word_count h - 1 ->
     mailbox (beamOffTransfer dp_lev m) (length p + 3) =
       (word_count h + 1) :: h :: p ++ [f] /\
     nWordsTotal (beamOffTransfer dp_lev m) = 0).
Proof.
  intros Hlev Hn m1 Hlo Hhi. split.
  - intros k chunk mk.
    destruct (drain_calls_chunks dp_lev k m Hlev Hn Hlo Hhi) as (H1 & H2).
    split; [exact H1 | split; [| exact H2]].
    unfold chunk. apply firstn_le_length.
  - intros h p f Hws Hp.
    destruct (beamOffTransfer_once dp_lev m Hlev Hn Hlo Hhi)
      as (Hmb & Hbl & Hlen & _ & Hn' & _).
    fold m1 in Hmb, Hbl, Hlen.
    pose proof (word_count_range h) as Hwc.
    assert (Hl : length (backlog m1) = (length p + 2)%nat)
      by (rewrite Hws; cbn [length]; rewrite length_app; simpl; lia).
    assert (Hall : firstn usable (backlog m1) = backlog m1)
      by (apply firstn_all2; rewrite Hl; unfold usable, NDPWORDS; lia).
    rewrite Hall in Hmb, Hlen. rewrite Hl in Hlen. rewrite <- Hlen in Hmb.
    replace (length p + 3)%nat with (S (length p + 2)) by lia.
    split.
    + rewrite Hmb, Hws. f_equal. lia.
    + assert (Hb0 : length (backlog (beamOffTransfer dp_lev m)) = 0%nat).
      { rewrite Hbl. rewrite length_skipn, Hl. unfold usable, NDPWORDS. lia. }
      unfold backlog in Hb0. rewrite read_words_length in Hb0. lia.
Qed.

Lemma mailbox_round_trip_witness :
  mailbox (beamOffTransfer 0 after_one_record) 4 = [3; header_of_count 2; 7; 9].
Proof.
  assert (Hlev : 0 <> 1) by lia.
  assert (Hn : 0 <= nWordsTotal after_one_record < 2 ^ 32) by (vm_compute; split; congruence).
  assert (Hlo : sdStartAddr <= currentSDAddr (beamOff_firstEntry after_one_record))
    by (vm_compute; congruence).
  assert (Hhi : currentSDAddr (beamOff_firstEntry after_one_record) +
                4 * nWordsTotal after_one_record <= sdEndAddr)
    by (vm_compute; congruence).
  destruct (mailbox_round_trip 0 after_one_record Hlev Hn Hlo Hhi) as [_ Hrec].
  assert (Hws : backlog (beamOff_firstEntry after_one_record) =
                header_of_count 2 :: [7] ++ [9]) by (vm_compute; reflexivity).
  assert (Hp : Z.of_nat (length [7]) = word_count (header_of_count 2) - 1)
    by (vm_compute; reflexivity).
  exact (proj1 (Hrec (header_of_count 2) [7] 9 Hws Hp)).
Defined.

(** C5, as stated, fails: a staged record whose header encodes [n = 2]
    reaches the mailbox behind the count 3, not 2. *)
Lemma mailbox_count_is_not_header_count :
  backlog (beamOff_firstEntry after_one_record) = [header_of_count 2; 7; 9] /\
  word_count (header_of_count 2) = 2 /\
  mailbox (beamOffTransfer 0 after_one_record) 4 = [3; header_of_count 2; 7; 9] /\
  mailbox (beamOffTransfer 0 after_one_record) 4 <> [2; header_of_count 2; 7; 9].
Proof. vm_compute. repeat split; congruence. Qed.

(** * The ingest loop on concrete spills *)

(** C6.  The payload copy of line 148 stores the bank's word plus one: in
    the one-record spill the hardware wrote payload word 6 and 7 is staged. *)
Theorem payload_copy_adds_one :
  (forall m, pc m = L148 ->
     load (mem (poll m)) (sdAddr m) = wrap32 (load (mem m) (dpAddr m) + 1)) /\
  load (mem after_one_record) (bank 1 + 4) = 6 /\
  read_words (mem after_one_record) sdStartAddr 3 = [header_of_count 2; 7; 9].
Proof.
  split; [| vm_compute; split; reflexivity].
  intros m Hpc. rewrite (poll_at L148) by assumption. cbn [exec]. fields.
  rewrite load_store_same. apply wrap32_idem.
Qed.

(** C7.  With the staging buffer exactly full ([nWordsTotal] at capacity,
    [sdAddr = sdEndAddr]) the next record is stored past [sdEndAddr] and the
    loop carries on in [BOS] with a count above capacity; and a header that
    encodes 1026 words makes the copy read on into the next bank (staged word
    1024 is bank 2's header plus one). *)
Theorem ingest_overflow_undetected :
  nWordsTotal staging_full = staging_capacity /\
  sdAddr staging_full = sdEndAddr /\
  read_words (mem (poll_n 16 staging_full)) sdEndAddr 2 = [header_of_count 1; 9] /\
  pc (poll_n 16 staging_full) = L115 /\
  state (poll_n 16 staging_full) = BOS /\
  nWordsTotal (poll_n 16 staging_full) = staging_capacity + 2 /\
  word_count (header_of_count 1026) = 1026 /\
  load (mem (run spill_oversized (boot zero_mem))) (padd sdStartAddr 1024)
    = header_of_count 3 + 1 /\
  nWordsTotal (run spill_oversized (boot zero_mem)) = 1027 /\
  state (run spill_oversized (boot zero_mem)) = BOS.
Proof. vm_compute. repeat split. Qed.

(** C8.  All banks are empty and the handler takes the machine out of [BOS]
    while the loop scans.  The [break] of line 124 leaves the scan only: the
    loop goes on to line 128 with [header = 0], stages the header word, and
    starts a payload copy of [0 - 1 = 4294967295] words. *)
Theorem scan_break_falls_through :
  let m0 := run (repeat Poll 72) (boot zero_mem) in
  let m1 := run (repeat Poll 72 ++ [IrqRaise 0; IrqComplete]) (boot zero_mem) in
  let m2 := run spill_interrupted (boot zero_mem) in
  (pc m0 = L122 /\ state m0 = BOS /\ sdAddr m0 = sdStartAddr) /\
  (pc m1 = L122 /\ state m1 = READY /\ nWordsTotal m1 = 0) /\
  (pc (poll_n 2 m1) = L128 /\ header (poll_n 2 m1) = 0) /\
  (pc (poll_n 7 m1) = L146 /\ sdAddr (poll_n 7 m1) = padd sdStartAddr 1 /\
   i (poll_n 7 m1) = 4294967295) /\
  (pc m2 = L148 /\ sdAddr m2 = padd sdStartAddr 2 /\ i m2 = 4294967294).
Proof. vm_compute. repeat split. Qed.

(** C9.  [init] fills [dpBankLastAddr] for banks 1 to 15 only: entry 0 keeps
    its static initialiser 0, so bank 0's event tag is read from address 0
    and not from word [NWORDSPERBANK - 3] of the bank. *)
Theorem init_skips_last_address_of_bank0 mm :
  let m := poll_n 67 (boot mm) in
  pc m = L113 /\
  tbl_get (dpBankStartAddr m) 0 = dpStartAddr /\
  tbl_get (dpBankLastAddr m) 0 = 0 /\
  (forall k, 1 <= k < NBANKS ->
     tbl_get (dpBankLastAddr m) k =
     tbl_get (dpBankStartAddr m) k + 4 * (NWORDSPERBANK - 3)) /\
  read_words (mem (run spill_bank0 (boot marked_mem))) sdStartAddr 2 =
    [header_of_count 1; 0xdead].
Proof.
  cbv zeta. split; [reflexivity | split; [reflexivity | split; [reflexivity | split]]].
  - intros k Hk. unfold NBANKS in Hk.
    assert (Hc : k = 1 \/ k = 2 \/ k = 3 \/ k = 4 \/ k = 5 \/ k = 6 \/ k = 7 \/ k = 8 \/
                 k = 9 \/ k = 10 \/ k = 11 \/ k = 12 \/ k = 13 \/ k = 14 \/ k = 15) by lia.
    repeat (destruct Hc as [-> | Hc]; [reflexivity |]). subst k. reflexivity.
  - vm_compute. reflexivity.
Qed.

(** * The ingest of one record *)

Lemma copy_loop_run k : forall m,
  pc m = L146 -> i m = Z.of_nat k -> Z.of_nat k < 2 ^ 32 ->
  poll_n (2 * k) m = loop_exit k m.
Proof.
  induction k as [| k IH]; intros m Hpc Hi Hk.
  - destruct m. cbn in *. subst. reflexivity.
  - replace (2 * S k)%nat with (S (S (2 * k))) by lia.
    cbn [poll_n].
    rewrite (poll_L146_more m Hpc) by lia.
    rewrite (poll_at L148) by reflexivity. cbn [exec].
    rewrite IH; [| reflexivity | cbn; rewrite wrap32_small; lia | lia].
    destruct m. cbn in *. subst. reflexivity.
Qed.

Lemma dp_to_sd_spec k : forall sd dp mm,
  0 <= sd -> sd + 4 * Z.of_nat k < 2 ^ 32 ->
  0 <= dp -> dp + 4 * Z.of_nat k < 2 ^ 32 ->
  sd + 4 * Z.of_nat k <= dp \/ dp + 4 * Z.of_nat k <= sd ->
  let r := dp_to_sd k sd dp mm in
  fst (fst r) = sd + 4 * Z.of_nat k /\
  snd (fst r) = dp + 4 * Z.of_nat k /\
  (forall j, 0 <= j < Z.of_nat k ->
     load (snd r) (sd + 4 * j) = copy_word (load mm (dp + 4 * j))) /\
  (forall a, a < sd \/ sd + 4 * Z.of_nat k <= a -> snd r a = mm a).
Proof.
  induction k as [| k IH]; intros sd dp mm Hs Hs' Hd Hd' Hdis; cbv zeta.
  - simpl. split; [lia | split; [lia | split; [intros; lia | reflexivity]]].
  - cbn [dp_to_sd]. rewrite !padd_small by lia.
    destruct (IH (sd + 4 * 1) (dp + 4 * 1) (store mm sd (wrap32 (load mm dp + 1))))
      as (Hf & Hg & Hk & Ha); try lia.
    split; [lia | split; [lia | split]].
    + intros j Hj. destruct (Z.eq_dec j 0) as [-> | Hne].
      * rewrite !Z.add_0_r. unfold load at 1. rewrite Ha by lia.
        fold (load (store mm sd (wrap32 (load mm dp + 1))) sd).
        rewrite load_store_same. unfold copy_word. apply wrap32_idem.
      * replace (sd + 4 * j) with (sd + 4 * 1 + 4 * (j - 1)) by lia.
        rewrite Hk by lia. rewrite load_store_other by lia.
        do 2 f_equal. lia.
    + intros a Hout. rewrite Ha by lia. unfold store.
      destruct (a =? sd) eqn:E; [apply Z.eqb_eq in E; lia | reflexivity].
Qed.

(** The seven steps from line 118, on a full bank, to the payload loop. *)
Lemma record_prefix_run m :
  pc m = L118 ->
  let base := tbl_get (dpBankStartAddr m) (currentDPBank m) in
  let h := load (mem m) base in
  h <> 0 ->
  poll_n 7 m =
  goto L146 (set_i (wrap32 (word_count h - 1))
    (set_sdAddr (padd (sdAddr m) 1)
    (set_mem (store (mem m) (sdAddr m) h)
    (set_eventID (load (mem m) (tbl_get (dpBankLastAddr m) (currentDPBank m)))
    (set_nWords (word_count h)
    (set_dpAddr (padd base 1)
    (set_header h m))))))).
Proof.
  intros Hpc base h Hh.
  change 7%nat with (S (S (S (S (S (S (S O))))))).
  rewrite (poll_n_step L118) by assumption. cbn [exec].
  rewrite poll_n_S, poll_L119_full by (try reflexivity; assumption).
  poll1 L128. poll1 L129. poll1 L135. poll1 L141. poll1 L145.
  rewrite poll_n_O. destruct m. reflexivity.
Qed.

(** The four steps from the end of the payload loop to line 164. *)
Lemma record_suffix_run m :
  pc m = L146 -> i m = 0 ->
  poll_n 4 m =
  goto L164
    (set_currentDPBank (Z.land (currentDPBank m + 1) BANKIDMASK)
    (set_mem (store (store (mem m) (sdAddr m) (eventID m))
                (tbl_get (dpBankStartAddr m) (currentDPBank m)) 0)
    (set_sdAddr (padd (sdAddr m) 1) m))).
Proof.
  intros Hpc Hi.
  change 4%nat with (S (S (S (S O)))).
  rewrite poll_n_S, poll_L146_done by assumption.
  poll1 L156. poll1 L160. poll1 L161.
  rewrite poll_n_O. destruct m. reflexivity.
Qed.

(** A full bank at the cursor, with room for its record below the dual-port
    RAM: the machine [2 n + 9] steps on, about to run line 164. *)
Lemma record_run m :
  pc m = L118 ->
  let cur := currentDPBank m in
  let base := tbl_get (dpBankStartAddr m) cur in
  let tagA := tbl_get (dpBankLastAddr m) cur in
  let h := load (mem m) base in
  let n := word_count h in
  let sd := sdAddr m in
  h <> 0 -> 1 <= n ->
  sdStartAddr <= sd -> sd + 4 * (n + 1) <= dpStartAddr ->
  dpStartAddr <= base -> base + 4 * n < 2 ^ 32 ->
  tagA < sdStartAddr \/ dpStartAddr <= tagA ->
  let m' := poll_n (Z.to_nat (2 * n + 9)) m in
  pc m' = L164 /\
  state m' = state m /\ nWordsTotal m' = nWordsTotal m /\
  in_handler m' = in_handler m /\ currentSDAddr m' = currentSDAddr m /\
  dpBankStartAddr m' = dpBankStartAddr m /\ dpBankLastAddr m' = dpBankLastAddr m /\
  header m' = h /\
  sdAddr m' = sd + 4 * (n + 1) /\
  currentDPBank m' = Z.land (cur + 1) BANKIDMASK /\
  load (mem m') sd = h /\
  (forall j, 0 <= j < n - 1 ->
     load (mem m') (sd + 4 * (j + 1)) = copy_word (load (mem m) (base + 4 * (j + 1)))) /\
  load (mem m') (sd + 4 * n) = load (mem m) tagA /\
  load (mem m') base = 0 /\
  (forall a, a < sd \/ sd + 4 * (n + 1) <= a -> a <> base -> mem m' a = mem m a).
Proof.
  intros Hpc cur base tagA h n sd Hh Hn Hlo Hhi Hb Hb' Htag m'.
  pose proof (word_count_range h) as Hwc. fold n in Hwc.
  set (k := Z.to_nat (n - 1)).
  assert (Hk : Z.of_nat k = n - 1) by (unfold k; lia).
  assert (Hm' : m' = poll_n 4 (poll_n (2 * k) (poll_n 7 m))).
  { unfold m'. rewrite <- !poll_n_add. f_equal. lia. }
  rewrite record_prefix_run in Hm' by assumption.
  fold cur base tagA h n in Hm'.
  rewrite copy_loop_run in Hm';
    [| reflexivity | fields; rewrite wrap32_small; lia | lia].
  rewrite record_suffix_run in Hm' by reflexivity.
  unfold loop_exit in Hm'. fields. cbn [goto] in Hm'. revert Hm'. fields. intros Hm'.
  unfold sdStartAddr, dpStartAddr in *.
  destruct (dp_to_sd_spec k (padd sd 1) (padd base 1) (store (mem m) sd h))
    as (Hf & Hg & Hcp & Hout); rewrite ?padd_small; try lia.
  rewrite !padd_small in Hf, Hg, Hcp, Hout by lia.
  rewrite Hm'. fields. fold cur base sd. clear Hm'.
  rewrite !(padd_small sd 1), !(padd_small base 1) by lia. rewrite Hf.
  repeat (split; [reflexivity |]).
  split; [rewrite padd_small by lia; lia |].
  split; [reflexivity |].
  split; [| split; [| split; [| split]]].
  - rewrite !load_store_other by lia. unfold load at 1. rewrite Hout by lia.
    fold (load (store (mem m) sd h) sd). rewrite load_store_same.
    apply wrap32_idem.
  - intros j Hj. rewrite !load_store_other by lia.
    replace (sd + 4 * (j + 1)) with (sd + 4 * 1 + 4 * j) by lia.
    rewrite Hcp by lia. rewrite load_store_other by lia.
    do 2 f_equal. lia.
  - rewrite load_store_other by lia.
    replace (sd + 4 * n) with (sd + 4 * 1 + 4 * Z.of_nat k) by lia.
    rewrite load_store_same. apply wrap32_idem.
  - apply load_store_same.
  - intros a Ha Hab. unfold store at 1 2.
    destruct (Z.eqb_spec a base); [contradiction |].
    destruct (Z.eqb_spec a (sd + 4 * 1 + 4 * Z.of_nat k)); [lia |].
    rewrite Hout by lia. unfold store.
    destruct (Z.eqb_spec a sd); [lia | reflexivity].
Qed.

(** * Accounting along a spill *)

Lemma padd_wrap_add p a x : padd p (a + wrap32 x) = padd p (a + x).
Proof.
  unfold padd, wrap32. rewrite (Z.mod_eq x) by lia.
  replace (p + 4 * (a + (x - 2 ^ 32 * (x / 2 ^ 32))))
    with (p + 4 * (a + x) + (- 4 * (x / 2 ^ 32)) * 2 ^ 32) by lia.
  apply Z.mod_add. lia.
Qed.

Lemma padd_wrap_sub p a x : padd p (a - wrap32 x) = padd p (a - x).
Proof.
  unfold padd, wrap32. rewrite (Z.mod_eq x) by lia.
  replace (p + 4 * (a - (x - 2 ^ 32 * (x / 2 ^ 32))))
    with (p + 4 * (a - x) + (4 * (x / 2 ^ 32)) * 2 ^ 32) by lia.
  apply Z.mod_add. lia.
Qed.

Lemma padd_loop_trip p a w x :
  padd p (a + (1 + (w - x)) + 1) = padd p (a + (1 + (w - wrap32 (x - 1)))).
Proof.
  replace (a + (1 + (w - wrap32 (x - 1)))) with (a + 1 + w - wrap32 (x - 1)) by lia.
  rewrite padd_wrap_sub. f_equal. lia.
Qed.

Lemma padd_record_end p a n :
  padd p (a + (2 + wrap32 (n - 1))) = padd p (a + (n + 1)).
Proof.
  replace (a + (2 + wrap32 (n - 1))) with (a + 2 + wrap32 (n - 1)) by lia.
  rewrite padd_wrap_add. f_equal. lia.
Qed.

Lemma words_of_app hs1 hs2 : words_of (hs1 ++ hs2) = words_of hs1 + words_of hs2.
Proof.
  induction hs1 as [| h hs1 IH]; cbn [app words_of fold_right]; [reflexivity |].
  fold (words_of (hs1 ++ hs2)). fold (words_of hs1). rewrite IH. lia.
Qed.

Lemma words_of_nonneg hs : 0 <= words_of hs.
Proof.
  induction hs as [| h hs IH]; cbn [words_of fold_right]; [lia |].
  fold (words_of hs). pose proof (word_count_range h). lia.
Qed.

(** One step of the polling context keeps the account; line 164 adds the
    record in hand to it. *)
Lemma poll_ingesting m acc :
  ingesting m acc ->
  ingesting (poll m)
    (acc + words_of (if completes Poll m then [header m] else [])).
Proof.
  intros (Hst & Hih & Hloop & Hn & Hsd & Hcnt).
  unfold ingesting, completes, poll, progress in *. rewrite Hih.
  destruct (pc m) eqn:Hpc; try discriminate Hloop; cbn [exec negb words_of fold_right];
    rewrite ?Z.add_0_r in *.
  all: try (rewrite Hst; cbn [Z.eqb negb BOS]).
  all: try (destruct (Z.eqb_spec (header m) 0)).
  all: try (destruct (Z.eqb_spec (i m) 0); cbn [negb]).
  all: fields; cbn [in_loop counted].
  all: repeat match goal with |- _ /\ _ => split end; try reflexivity; try assumption;
       try (intros; discriminate); try (intros _; apply Hcnt; reflexivity).
  all: rewrite ?Hsd, ?padd_padd.
  all: try (f_equal; lia).
  all: try apply padd_loop_trip.
  all: rewrite (Hcnt eq_refl); try apply padd_record_end.
  all: f_equal; apply padd_record_end.
Qed.

Lemma step_ingesting e m acc :
  beam_on e = true -> ingesting m acc ->
  ingesting (step e m) (acc + words_of (if completes e m then [header m] else [])).
Proof.
  intros He Hin. pose proof Hin as (Hst & Hih & Hloop & Hn & Hsd & Hcnt).
  destruct e as [| lev | | a v]; cbn [step]; rewrite ?Hih.
  - now apply poll_ingesting.
  - cbn in He. rewrite He. cbn. now rewrite Z.add_0_r.
  - cbn. now rewrite Z.add_0_r.
  - replace (completes (HwWrite a v) m) with false by (unfold completes; reflexivity).
    cbn [words_of fold_right]. rewrite Z.add_0_r.
    destruct (in_dp a); [| exact Hin].
    unfold ingesting, progress. fields. repeat split; assumption.
Qed.

Lemma run_ingesting evs : forall m acc,
  forallb beam_on evs = true -> ingesting m acc ->
  ingesting (run evs m) (acc + words_of (consumed evs m)).
Proof.
  induction evs as [| e evs IH]; intros m acc Hq Hin.
  - cbn. now rewrite Z.add_0_r.
  - cbn [forallb] in Hq. apply andb_prop in Hq as [He Hq].
    cbn [run consumed]. rewrite words_of_app, Z.add_assoc.
    apply IH; [assumption |]. now apply step_ingesting.
Qed.

Lemma fresh_spill_ingesting m : fresh_spill m -> ingesting m 0.
Proof.
  intros (Hpc & Hst & Hih & Hsd & Hn).
  unfold ingesting, progress. rewrite Hpc, Hn, Hsd.
  repeat split; try assumption; try reflexivity. discriminate.
Qed.

(** During beam-on the count is the size of the completed records, and the
    write cursor is ahead of it by the staged part of the record in hand. *)
Lemma beam_on_account evs m0 :
  fresh_spill m0 -> forallb beam_on evs = true ->
  words_of (consumed evs m0) <= staging_capacity ->
  let m := run evs m0 in
  nWordsTotal m = words_of (consumed evs m0) /\
  sdAddr m = padd sdStartAddr (words_of (consumed evs m0) + progress m) /\
  state m = BOS.
Proof.
  intros Hf Hq Hcap m.
  destruct (run_ingesting evs m0 0 Hq (fresh_spill_ingesting m0 Hf))
    as (Hst & _ & _ & Hn & Hsd & _).
  fold m in Hst, Hn, Hsd. rewrite Z.add_0_l in *.
  split; [| split; assumption].
  rewrite Hn. apply ptr_diff_padd.
  pose proof (words_of_nonneg (consumed evs m0)).
  unfold staging_capacity, sdEndAddr, sdStartAddr in Hcap.
  change ((602931200 - 536903680) / 4) with 16506880 in Hcap. lia.
Qed.

(** * Records as lists *)

Lemma read_words_snoc mm k : forall a,
  0 <= a -> a + 4 * (Z.of_nat k + 1) < 2 ^ 32 ->
  read_words mm a (k + 1) = read_words mm a k ++ [load mm (a + 4 * Z.of_nat k)].
Proof.
  induction k as [| k IH]; intros a Ha Ha'.
  - cbn. now rewrite Z.add_0_r.
  - cbn [Nat.add read_words app]. rewrite padd_small by lia.
    rewrite IH by lia.
    replace (a + 4 * Z.of_nat (S k)) with (a + 4 * 1 + 4 * Z.of_nat k) by lia.
    reflexivity.
Qed.

Lemma read_words_map m1 m2 f k : forall a b,
  0 <= a -> a + 4 * Z.of_nat k < 2 ^ 32 ->
  0 <= b -> b + 4 * Z.of_nat k < 2 ^ 32 ->
  (forall j, 0 <= j < Z.of_nat k -> load m1 (a + 4 * j) = f (load m2 (b + 4 * j))) ->
  read_words m1 a k = map f (read_words m2 b k).
Proof.
  induction k as [| k IH]; intros a b Ha Ha' Hb Hb' H; [reflexivity |].
  cbn [read_words map]. rewrite !padd_small by lia. f_equal.
  - specialize (H 0). rewrite !Z.add_0_r in H. apply H. lia.
  - apply IH; try lia. intros j Hj. specialize (H (j + 1)).
    replace (a + 4 * 1 + 4 * j) with (a + 4 * (j + 1)) by lia.
    replace (b + 4 * 1 + 4 * j) with (b + 4 * (j + 1)) by lia.
    apply H. lia.
Qed.

Lemma ptr_diff_staging a :
  sdStartAddr <= a <= dpStartAddr -> ptr_diff a sdStartAddr = (a - sdStartAddr) / 4.
Proof.
  unfold sdStartAddr, dpStartAddr. intros Ha.
  unfold ptr_diff, sint32.
  rewrite (wrap32_small (a - 536903680)) by lia.
  destruct (a - 536903680 <? 2 ^ 31) eqn:E; [| apply Z.ltb_ge in E; lia].
  apply wrap32_small.
  pose proof (Z.div_pos (a - 536903680) 4).
  pose proof (Z.div_le_upper_bound (a - 536903680) 4 (2 ^ 30)). lia.
Qed.

Lemma init_banks_ready mm : banks_ready (poll_n 67 (boot mm)).
Proof. split; reflexivity. Qed.

Lemma banks_ready_addr m k :
  banks_ready m -> 0 <= k < NBANKS ->
  dpStartAddr <= tbl_get (dpBankStartAddr m) k <= dpStartAddr + 15 * 4096 /\
  (tbl_get (dpBankLastAddr m) k = 0 \/ dpStartAddr <= tbl_get (dpBankLastAddr m) k).
Proof.
  intros [Hs Hl] Hk. rewrite Hs, Hl. clear Hs Hl. unfold NBANKS in Hk.
  assert (Hc : k = 0 \/ k = 1 \/ k = 2 \/ k = 3 \/ k = 4 \/ k = 5 \/ k = 6 \/ k = 7 \/
               k = 8 \/ k = 9 \/ k = 10 \/ k = 11 \/ k = 12 \/ k = 13 \/ k = 14 \/
               k = 15) by lia.
  clear Hk.
  repeat (destruct Hc as [-> | Hc];
          [vm_compute; split;
           [split; discriminate | first [left; reflexivity | right; discriminate]] |]).
  subst k. vm_compute. split; [split; discriminate | right; discriminate].
Qed.

(** A full bank at the cursor and room for its record in the staging
    buffer: when line 164 is reached the record is staged, framed, and the
    bank is free again; the count has not moved yet. *)
Lemma record_staged m :
  pc m = L118 -> banks_ready m -> 0 <= currentDPBank m < NBANKS ->
  let base := tbl_get (dpBankStartAddr m) (currentDPBank m) in
  let tagA := tbl_get (dpBankLastAddr m) (currentDPBank m) in
  let h := load (mem m) base in
  let n := word_count h in
  1 <= n ->
  sdStartAddr <= sdAddr m -> sdAddr m + 4 * (n + 1) <= sdEndAddr ->
  let m9 := poll_n (Z.to_nat (2 * n + 9)) m in
  pc m9 = L164 /\
  state m9 = state m /\ nWordsTotal m9 = nWordsTotal m /\
  header m9 = h /\
  sdAddr m9 = sdAddr m + 4 * (n + 1) /\
  currentDPBank m9 = Z.land (currentDPBank m + 1) BANKIDMASK /\
  read_words (mem m9) (sdAddr m) (Z.to_nat (n + 1)) =
    h :: map copy_word (read_words (mem m) (padd base 1) (Z.to_nat (n - 1)))
      ++ [load (mem m) tagA] /\
  load (mem m9) base = 0.
Proof.
  intros Hpc Hready Hcur base tagA h n Hn Hlo Hhi m9.
  destruct (banks_ready_addr m (currentDPBank m) Hready Hcur) as (Hb & Ht).
  fold base in Hb. fold tagA in Ht.
  pose proof (word_count_range h) as Hwc. fold n in Hwc.
  assert (Hh : h <> 0).
  { intros E. unfold n in Hn. rewrite E in Hn. vm_compute in Hn. auto. }
  unfold sdStartAddr, sdEndAddr, dpStartAddr in *.
  destruct (record_run m Hpc) as
    (H1 & H2 & H3 & _ & _ & _ & _ & H8 & H9 & H10 & H11 & H12 & H13 & H14 & _);
    fold base tagA h n; unfold sdStartAddr, dpStartAddr; try lia.
  fold base tagA h n m9 in H1, H2, H3, H8, H9, H10, H11, H12, H13, H14.
  repeat (split; [assumption |]). split; [| assumption].
  set (k := Z.to_nat (n - 1)).
  replace (Z.to_nat (n + 1)) with (S (k + 1)) by lia.
  cbn [read_words]. rewrite H11, !padd_small by lia.
  rewrite read_words_snoc by lia.
  replace (sdAddr m + 4 * 1 + 4 * Z.of_nat k) with (sdAddr m + 4 * n) by lia.
  rewrite H13. cbn [app]. do 2 f_equal.
  apply read_words_map; try lia.
  intros j Hj.
  replace (sdAddr m + 4 * 1 + 4 * j) with (sdAddr m + 4 * (j + 1)) by lia.
  replace (base + 4 * 1 + 4 * j) with (base + 4 * (j + 1)) by lia.
  apply H12. lia.
Qed.

Lemma tbl_get_bank_start m k :
  banks_ready m -> 0 <= k < 16 -> tbl_get (dpBankStartAddr m) k = bank k.
Proof.
  intros [Hs _] Hk. rewrite Hs. clear Hs.
  assert (Hc : k = 0 \/ k = 1 \/ k = 2 \/ k = 3 \/ k = 4 \/ k = 5 \/ k = 6 \/ k = 7 \/
               k = 8 \/ k = 9 \/ k = 10 \/ k = 11 \/ k = 12 \/ k = 13 \/ k = 14 \/
               k = 15) by lia.
  clear Hk.
  repeat (destruct Hc as [-> | Hc]; [reflexivity |]). subst k. reflexivity.
Qed.





(** * When the count moves *)

Lemma on_record_step m :
  on_record m -> pc m <> L164 ->
  on_record (poll m) /\ to_update (poll m) = to_update m - 1 /\
  nWordsTotal (poll m) = nWordsTotal m.
Proof.
  intros Hon Hpc. unfold on_record, to_update, poll in *.
  pose proof (word_count_range (header m)) as Hwc.
  destruct (pc m) eqn:E; try contradiction; cbn [exec].
  - (* L119 *)
    destruct (Z.eqb_spec (header m) 0) as [Hz | Hz].
    + rewrite Hz in Hon. vm_compute in Hon. exfalso. auto.
    + fields. repeat split; lia.
  - fields. repeat split; lia.
  - fields. repeat split; lia.
  - fields. repeat split; lia.
  - fields. repeat split; lia.
  - (* L145 *)
    fields. rewrite wrap32_small by lia. repeat split; lia.
  - (* L146 *)
    destruct (Z.eqb_spec (i m) 0) as [Hz | Hz]; cbn [negb]; fields;
      repeat split; lia.
  - (* L148 *)
    fields. rewrite wrap32_small by lia. repeat split; lia.
  - fields. repeat split; lia.
  - fields. repeat split; lia.
  - fields. repeat split; lia.
Qed.

Lemma on_record_quiet r : forall m,
  on_record m -> to_update m = Z.of_nat r ->
  pc (poll_n r m) = L164 /\
  forall j, (j <= r)%nat -> nWordsTotal (poll_n j m) = nWordsTotal m.
Proof.
  induction r as [| r IH]; intros m Hon Hr.
  - split.
    + rewrite poll_n_O. unfold on_record, to_update in *.
      pose proof (word_count_range (header m)).
      destruct (pc m); try contradiction; try reflexivity; lia.
    + intros j Hj. replace j with O by lia. reflexivity.
  - assert (Hpc : pc m <> L164).
    { intros E. unfold to_update in Hr. rewrite E in Hr. lia. }
    destruct (on_record_step m Hon Hpc) as (Hon' & Hr' & Hn').
    destruct (IH (poll m) Hon' ltac:(lia)) as (Hend & Hq).
    split; [rewrite poll_n_S; exact Hend |].
    intros j Hj. destruct j as [| j]; [reflexivity |].
    rewrite poll_n_S, Hq by lia. exact Hn'.
Qed.

Lemma poll_n_succ_r r m : poll_n (S r) m = poll (poll_n r m).
Proof. replace (S r) with (r + 1)%nat by lia. now rewrite poll_n_add. Qed.

Lemma loop_keeps_count m :
  in_loop (pc m) = true -> pc m <> L164 -> nWordsTotal (poll m) = nWordsTotal m.
Proof.
  intros Hloop Hpc. unfold poll.
  destruct (pc m) eqn:E; try discriminate Hloop; try contradiction; cbn [exec].
  all: try (destruct (state m =? BOS); cbn [negb]).
  all: try (destruct (header m =? 0)).
  all: try (destruct (i m =? 0); cbn [negb]).
  all: reflexivity.
Qed.

(** C10.  Inside the ingest loop only line 164 writes [nWordsTotal].  While
    a record (header count [n >= 1], fitting the buffer) is copied the count
    stays as it was; when line 164 is reached the [n + 1] words of the record
    are staged and the bank's header is cleared, and that one step adds
    [n + 1] to the count.  So at every point of a beam-on run the count is
    the size of the completed records, while the write cursor is ahead of it
    by the staged part of the record in hand. *)
Theorem count_moves_after_record :
  (forall m,
     in_loop (pc m) = true -> pc m <> L164 -> nWordsTotal (poll m) = nWordsTotal m) /\
  (forall m,
     pc m = L118 -> banks_ready m -> 0 <= currentDPBank m < NBANKS ->
     let base := tbl_get (dpBankStartAddr m) (currentDPBank m) in
     let tagA := tbl_get (dpBankLastAddr m) (currentDPBank m) in
     let h := load (mem m) base in
     let n := word_count h in
     1 <= n ->
     sdStartAddr <= sdAddr m -> sdAddr m + 4 * (n + 1) <= sdEndAddr ->
     let r := Z.to_nat (2 * n + 9) in
     (forall j, (j <= r)%nat -> nWordsTotal (poll_n j m) = nWordsTotal m) /\
     pc (poll_n r m) = L164 /\
     read_words (mem (poll_n r m)) (sdAddr m) (Z.to_nat (n + 1)) =
       h :: map copy_word (read_words (mem m) (padd base 1) (Z.to_nat (n - 1)))
         ++ [load (mem m) tagA] /\
     load (mem (poll_n r m)) base = 0 /\
     nWordsTotal (poll_n (S r) m) = ptr_diff (sdAddr m) sdStartAddr + (n + 1)) /\
  (forall evs m0,
     fresh_spill m0 -> forallb beam_on evs = true ->
     words_of (consumed evs m0) <= staging_capacity ->
     let m := run evs m0 in
     nWordsTotal m = words_of (consumed evs m0) /\
     sdAddr m = padd sdStartAddr (words_of (consumed evs m0) + progress m)).
Proof.
  split; [exact loop_keeps_count | split].
  - intros m Hpc Hready Hcur base tagA h n Hn Hlo Hhi r.
    destruct (record_staged m Hpc Hready Hcur Hn Hlo Hhi)
      as (H1 & _ & _ & _ & H5 & _ & H7 & H8).
    fold base tagA h n r in H1, H5, H7, H8.
    pose proof (word_count_range h) as Hwc. fold n in Hwc.
    split; [| split; [exact H1 | split; [exact H7 | split; [exact H8 |]]]].
    + intros j Hj. destruct j as [| j]; [reflexivity |].
      rewrite poll_n_S, (poll_at L118) by assumption. cbn [exec].
      fold base. fold h.
      set (m1 := goto L119 (set_header h m)).
      assert (Hon : on_record m1) by (unfold on_record, m1; fields; fold n; lia).
      assert (Hr : to_update m1 = Z.of_nat (Z.to_nat (2 * n + 8)))
        by (unfold to_update, m1; fields; fold n; lia).
      destruct (on_record_quiet _ m1 Hon Hr) as (_ & Hq).
      rewrite Hq by lia. reflexivity.
    + rewrite poll_n_succ_r, (poll_at L164) by assumption. cbn [exec]. fields.
      rewrite H5. unfold sdStartAddr, sdEndAddr in *.
      rewrite !ptr_diff_staging by (unfold sdStartAddr, dpStartAddr; lia).
      unfold sdStartAddr.
      replace (sdAddr m + 4 * (n + 1) - 536903680)
        with (sdAddr m - 536903680 + (n + 1) * 4) by lia.
      apply Z.div_add. lia.
  - intros evs m0 Hf Hq Hcap m.
    destruct (beam_on_account evs m0 Hf Hq Hcap) as (Ha & Hb & _).
    split; assumption.
Qed.

Lemma count_moves_after_record_witness :
  nWordsTotal (poll_n 13 at_full_bank0) = 0 /\
  pc (poll_n 13 at_full_bank0) = L164 /\
  load (mem (poll_n 13 at_full_bank0)) dpStartAddr = 0 /\
  nWordsTotal (poll_n 14 at_full_bank0) = 3.
Proof.
  destruct count_moves_after_record as (_ & Hrec & _).
  assert (Hpc : pc at_full_bank0 = L118) by (vm_compute; reflexivity).
  assert (Hready : banks_ready at_full_bank0) by (split; vm_compute; reflexivity).
  assert (Hcur : 0 <= currentDPBank at_full_bank0 < NBANKS)
    by (vm_compute; split; [discriminate | reflexivity]).
  assert (Hn : 1 <= word_count
                 (load (mem at_full_bank0)
                    (tbl_get (dpBankStartAddr at_full_bank0)
                       (currentDPBank at_full_bank0))))
    by (vm_compute; discriminate).
  assert (Hlo : sdStartAddr <= sdAddr at_full_bank0) by (vm_compute; discriminate).
  assert (Hhi : sdAddr at_full_bank0 +
                4 * (word_count
                       (load (mem at_full_bank0)
                          (tbl_get (dpBankStartAddr at_full_bank0)
                             (currentDPBank at_full_bank0))) + 1) <= sdEndAddr)
    by (vm_compute; discriminate).
  pose proof (Hrec at_full_bank0 Hpc Hready Hcur Hn Hlo Hhi) as (Hq & H1 & _ & H8 & H9).
  specialize (Hq 13%nat).
  clear - Hq H1 H8 H9. revert Hq H1 H8 H9. vm_compute.
  intros Hq H1 H8 H9.
  split; [apply Hq; apply le_n | split; [exact H1 | split; [exact H8 | exact H9]]].
Defined.

(** * The spill state machine *)

Lemma poll_cycle m :
  in_handler m = false -> cycle_inv m ->
  cycle_inv (poll m) /\ legal (state m) (state (poll m)) /\
  (state m = BOS -> state (poll m) = BOS).
Proof.
  intros Hih (Hdom & Hinit & Hh). unfold cycle_inv, legal, poll.
  destruct (pc m) eqn:E; cbn [exec before_beam] in *.
  all: try (destruct (Z.eqb_spec (state m) READY)).
  all: try (destruct (Z.eqb_spec (state m) BOS); cbn [negb]).
  all: try (destruct (init_i m <? NBANKS)).
  all: try (destruct (header m =? 0)).
  all: try (destruct (i m =? 0); cbn [negb]).
  all: fields; rewrite ?E; cbn [before_beam]; rewrite ?Hih.
  all: try (split; [split; [assumption | split; [auto; intros; discriminate | intros; discriminate]]
                   | split; [left; reflexivity | auto]]).
  (* line 94: state = BOS *)
  all: specialize (Hinit eq_refl).
  all: split; [split; [left; reflexivity | split; intros; discriminate] |].
  all: split; [right; left; split; [assumption | reflexivity] | reflexivity].
Qed.

Lemma beamOff_drain_state m :
  state (beamOff_drain m) = state m \/ state (beamOff_drain m) = READY.
Proof.
  unfold beamOff_drain.
  destruct (wrap32 _ =? 0); fields; [right | left]; reflexivity.
Qed.

Lemma beamOff_drain_pc m : pc (beamOff_drain m) = pc m.
Proof. unfold beamOff_drain. destruct (wrap32 _ =? 0); reflexivity. Qed.

Lemma step_cycle e m :
  cycle_inv m ->
  cycle_inv (step e m) /\ legal (state m) (state (step e m)) /\
  (state m = BOS -> state (step e m) <> BOS ->
   exists lev, e = IrqRaise lev /\ lev <> 1 /\ state (step e m) = EOS).
Proof.
  intros Hinv. pose proof Hinv as (Hdom & Hinit & Hh).
  assert (Hsame : cycle_inv m /\ legal (state m) (state m) /\
                  (state m = BOS -> state m <> BOS ->
                   exists lev, e = IrqRaise lev /\ lev <> 1 /\ state m = EOS)).
  { split; [assumption | split; [left; reflexivity | intros; contradiction]]. }
  destruct e as [| lev | | a v]; cbn [step].
  - destruct (in_handler m) eqn:Hih; [exact Hsame |].
    destruct (poll_cycle m Hih Hinv) as (H1 & H2 & H3).
    split; [assumption | split; [assumption |]].
    intros Hb Hnb. specialize (H3 Hb). contradiction.
  - destruct (in_handler m) eqn:Hih; [exact Hsame |].
    destruct (Z.eqb_spec lev 1) as [Hl | Hl]; [exact Hsame |].
    unfold beamOff_firstEntry.
    destruct (Z.eqb_spec (state m) BOS) as [Hb | Hb]; unfold cycle_inv, legal; fields.
    + split; [split; [right; left; reflexivity | split; [| intros; discriminate]] |].
      * intros Hbb. specialize (Hinit Hbb). rewrite Hb in Hinit. discriminate.
      * split; [right; right; left; split; [assumption | reflexivity] |].
        intros _ _. exists lev. repeat split. assumption.
    + split; [split; [assumption | split; [assumption | intros; assumption]] |].
      split; [left; reflexivity | intros; contradiction].
  - destruct (in_handler m) eqn:Hih; [| exact Hsame].
    specialize (Hh eq_refl).
    unfold cycle_inv, legal. fields. rewrite beamOff_drain_pc.
    destruct (beamOff_drain_state m) as [Hs | Hs]; rewrite Hs.
    + split; [split; [assumption | split; [assumption | intros; discriminate]] |].
      split; [left; reflexivity | intros; contradiction].
    + split; [split; [right; right; reflexivity | split; [reflexivity | intros; discriminate]] |].
      split; [| intros; contradiction].
      destruct Hdom as [Hb | [He | Hr]]; [contradiction | |].
      * right; right; right. split; [assumption | reflexivity].
      * left. assumption.
  - destruct (in_dp a); [| exact Hsame]. exact Hsame.
Qed.

Lemma run_cycle evs : forall m, cycle_inv m -> cycle_inv (run evs m).
Proof.
  induction evs as [| e evs IH]; intros m Hinv; [assumption |].
  cbn [run]. apply IH. now apply step_cycle.
Qed.

Lemma at_main_loop_cycle m : at_main_loop m -> cycle_inv m.
Proof.
  intros (Hpc & Hst & Hih). unfold cycle_inv. rewrite Hpc, Hst, Hih.
  split; [right; right; reflexivity | split; intros; discriminate].
Qed.

(** C4.  Along every run from the main loop, each step either leaves
    [state] alone or moves it one place along [READY -> BOS -> EOS -> READY].
    There is no step from [BOS] to [READY] and none from [EOS] to [BOS]; the
    polling context never takes [state] out of [BOS], only the handler's
    first-entry block does, and it moves it to [EOS]. *)
Theorem spill_state_cycle m0 evs e :
  at_main_loop m0 ->
  let m := run evs m0 in
  let m' := step e m in
  legal (state m) (state m') /\
  ~ (state m = BOS /\ state m' = READY) /\
  ~ (state m = EOS /\ state m' = BOS) /\
  (state m = BOS -> state m' <> BOS ->
   exists lev, e = IrqRaise lev /\ lev <> 1 /\ state m' = EOS) /\
  (e = Poll -> state m = BOS -> state m' = BOS).
Proof.
  intros H0 m m'.
  pose proof (run_cycle evs m0 (at_main_loop_cycle m0 H0)) as Hinv. fold m in Hinv.
  destruct (step_cycle e m Hinv) as (_ & Hlegal & Hexit). fold m' in Hlegal, Hexit.
  split; [exact Hlegal |].
  split; [| split; [| split; [exact Hexit |]]].
  - intros [Ha Hb].
    destruct Hlegal as [E | [[E1 E2] | [[E1 E2] | [E1 E2]]]]; rewrite ?Ha, ?Hb in *;
      discriminate.
  - intros [Ha Hb].
    destruct Hlegal as [E | [[E1 E2] | [[E1 E2] | [E1 E2]]]]; rewrite ?Ha, ?Hb in *;
      discriminate.
  - intros He Hb.
    destruct (Z.eq_dec (state m') BOS) as [E | E]; [assumption |].
    destruct (Hexit Hb E) as (lev & Hl & _). rewrite He in Hl. discriminate.
Qed.

Lemma spill_state_cycle_witness :
  legal (state after_one_record) (state (step (IrqRaise 0) after_one_record)) /\
  state after_one_record = BOS /\
  state (step (IrqRaise 0) after_one_record) = EOS.
Proof.
  assert (H0 : at_main_loop (boot zero_mem)) by (repeat split).
  destruct (spill_state_cycle (boot zero_mem) spill_one_record (IrqRaise 0) H0)
    as (Hlegal & _ & _ & Hexit & _).
  split; [exact Hlegal |].
  assert (Hb : state (run spill_one_record (boot zero_mem)) = BOS)
    by (vm_compute; reflexivity).
  split; [exact Hb |].
  destruct (Hexit Hb) as (lev & _ & _ & He); [| exact He].
  vm_compute. discriminate.
Defined.

(** The cycle is walked: a whole spill takes [state] through
    [READY, BOS, EOS, READY] and on into [BOS] for the next spill. *)
Example one_spill_walks_the_cycle :
  changes (states one_spill (boot zero_mem)) = [READY; BOS; EOS; READY; BOS].
Proof. vm_compute. reflexivity. Qed.

(** * The length field of a header *)

(** X2.  The length field is bits 20 to 30 of the header: it is
    [(h / 2^20) mod 2^11], lies between 0 and 2047, and neither bit 31 nor
    the low 20 bits change it. *)
Theorem word_count_field h :
  word_count h = (h / 2 ^ 20) mod 2 ^ 11 /\
  0 <= word_count h <= 2047 /\
  (forall n lo hi,
     0 <= n < 2048 -> 0 <= lo < 2 ^ 20 ->
     word_count (hi * 2 ^ 31 + n * 2 ^ 20 + lo) = n).
Proof.
  split; [apply word_count_spec | split].
  - pose proof (word_count_range h). lia.
  - intros n lo hi Hn Hlo. rewrite word_count_spec.
    replace (hi * 2 ^ 31 + n * 2 ^ 20 + lo)
      with (lo + (n + hi * 2 ^ 11) * 2 ^ 20) by lia.
    rewrite Z.div_add by lia. rewrite Z.div_small by lia.
    rewrite Z.add_0_l, Z.mod_add by lia. apply Z.mod_small. lia.
Qed.

(** * What the handler leaves alone *)

Lemma sd_to_dp_frame n : forall d c mm a,
  0 <= d -> d + 4 * Z.of_nat n < 2 ^ 32 ->
  a < d \/ d + 4 * Z.of_nat n <= a ->
  snd (sd_to_dp n d c mm) a = mm a.
Proof.
  induction n as [| n IH]; intros d c mm a Hd Hd' Ha; [reflexivity |].
  cbn [sd_to_dp]. rewrite (padd_small d) by lia.
  rewrite IH by lia. unfold store.
  destruct (Z.eqb_spec a d); [lia | reflexivity].
Qed.

Lemma batch_le m : batch m <= NDPWORDS - 1.
Proof.
  unfold batch. destruct (NDPWORDS - 1 >? nWordsTotal m) eqn:E; [| lia].
  apply Z.gtb_lt in E. lia.
Qed.

Lemma beamOff_drain_frame m a :
  a < dpStartAddr \/ dpStartAddr + DPSIZE <= a -> mem (beamOff_drain m) a = mem m a.
Proof.
  intros Ha. pose proof (batch_le m) as Hb.
  unfold dpStartAddr, DPSIZE, NDPWORDS in *.
  assert (Hm : mem (beamOff_drain m) =
               snd (sd_to_dp (Z.to_nat (batch m)) (padd dpStartAddr 1) (currentSDAddr m)
                      (store (mem m) dpStartAddr (batch m)))).
  { unfold beamOff_drain. destruct (wrap32 _ =? 0); reflexivity. }
  rewrite Hm, sd_to_dp_frame;
    rewrite ?padd_small; unfold dpStartAddr; try lia.
  unfold store. destruct (Z.eqb_spec a 1342177280); [lia | reflexivity].
Qed.

(** X3.  Whatever the machine and the pin level, a handler run stores only
    into the dual-port RAM ([DPSIZE] bytes from [dpStartAddr]), so never into
    the staging buffer, and it changes none of the polling context's
    variables nor the bank tables. *)
Theorem beamOffTransfer_confined dp_lev m :
  let m' := beamOffTransfer dp_lev m in
  (forall a, a < dpStartAddr \/ dpStartAddr + DPSIZE <= a -> mem m' a = mem m a) /\
  pc m' = pc m /\ sdAddr m' = sdAddr m /\ currentDPBank m' = currentDPBank m /\
  header m' = header m /\ dpAddr m' = dpAddr m /\ nWords m' = nWords m /\
  eventID m' = eventID m /\ i m' = i m /\ init_i m' = init_i m /\
  dpBankStartAddr m' = dpBankStartAddr m /\ dpBankLastAddr m' = dpBankLastAddr m.
Proof.
  cbv zeta. unfold beamOffTransfer.
  destruct (dp_lev =? 1); [repeat split |].
  split.
  - intros a Ha. rewrite beamOff_drain_frame by assumption.
    unfold beamOff_firstEntry. destruct (state m =? BOS); reflexivity.
  - unfold beamOff_drain, beamOff_firstEntry.
    destruct (state m =? BOS); destruct (wrap32 _ =? 0); repeat split.
Qed.

(** * How many runs a backlog takes *)

Lemma beamOffTransfer_count dp_lev m :
  dp_lev <> 1 -> 0 <= nWordsTotal m < 2 ^ 32 ->
  (state m = BOS \/ state m = EOS) \/ (state m = READY /\ nWordsTotal m = 0) ->
  let m' := beamOffTransfer dp_lev m in
  nWordsTotal m' = Z.max 0 (nWordsTotal m - (NDPWORDS - 1)) /\
  state m' = drained_state (nWordsTotal m) 1 /\
  ((state m' = BOS \/ state m' = EOS) \/ (state m' = READY /\ nWordsTotal m' = 0)).
Proof.
  intros Hlev Hn Hst. cbv zeta. unfold beamOffTransfer.
  destruct (Z.eqb_spec dp_lev 1); [contradiction |].
  assert (Hb : batch (beamOff_firstEntry m) = Z.min (NDPWORDS - 1) (nWordsTotal m))
    by (rewrite batch_firstEntry; apply batch_min).
  assert (Hn1 : nWordsTotal (beamOff_firstEntry m) = nWordsTotal m)
    by (unfold beamOff_firstEntry; now destruct (state m =? BOS)).
  assert (Hs1 : state (beamOff_firstEntry m) = EOS \/
                (state (beamOff_firstEntry m) = READY /\ nWordsTotal m = 0)).
  { unfold beamOff_firstEntry.
    destruct (Z.eqb_spec (state m) BOS) as [E | E]; [left; reflexivity |].
    destruct Hst as [[H | H] | H]; [contradiction | left; assumption | right; assumption]. }
  set (m1 := beamOff_firstEntry m) in *.
  assert (Hnt : nWordsTotal (beamOff_drain m1) = nWordsTotal m - batch m1).
  { unfold beamOff_drain. rewrite Hn1.
    destruct (wrap32 _ =? 0); cbn; apply wrap32_small; rewrite Hb;
      unfold NDPWORDS; lia. }
  assert (Hstt : state (beamOff_drain m1) =
                 if nWordsTotal m - batch m1 =? 0 then READY else state m1).
  { unfold beamOff_drain. rewrite Hn1.
    rewrite (wrap32_small (nWordsTotal m - batch m1))
      by (rewrite Hb; unfold NDPWORDS; lia).
    destruct (nWordsTotal m - batch m1 =? 0); reflexivity. }
  rewrite Hnt, Hstt, Hb. unfold drained_state, NDPWORDS in *.
  change (Z.of_nat 1 * (32768 - 1)) with 32767.
  destruct (Z.eqb_spec (nWordsTotal m - Z.min (32768 - 1) (nWordsTotal m)) 0) as [E | E];
    destruct (Z.leb_spec (nWordsTotal m) 32767) as [L | L]; lia.
Qed.

Lemma drain_calls_count_aux dp_lev k : forall m,
  dp_lev <> 1 -> 0 <= nWordsTotal m < 2 ^ 32 ->
  (state m = BOS \/ state m = EOS) \/ (state m = READY /\ nWordsTotal m = 0) ->
  nWordsTotal (drain_calls dp_lev (S k) m) =
    Z.max 0 (nWordsTotal m - Z.of_nat (S k) * (NDPWORDS - 1)) /\
  state (drain_calls dp_lev (S k) m) = drained_state (nWordsTotal m) (S k).
Proof.
  induction k as [| k IH]; intros m Hlev Hn Hst;
    destruct (beamOffTransfer_count dp_lev m Hlev Hn Hst) as (H1 & H2 & H3).
  - cbn [drain_calls]. split; [| exact H2].
    rewrite H1. unfold NDPWORDS. lia.
  - change (drain_calls dp_lev (S (S k)) m)
      with (drain_calls dp_lev (S k) (beamOffTransfer dp_lev m)).
    destruct (IH (beamOffTransfer dp_lev m) Hlev) as (I1 & I2);
      [rewrite H1; unfold NDPWORDS; lia | exact H3 |].
    rewrite I1, I2, H1. unfold drained_state, NDPWORDS.
    split; [lia |].
    destruct (Z.leb_spec (Z.max 0 (nWordsTotal m - (32768 - 1)))
                (Z.of_nat (S k) * (32768 - 1)));
      destruct (Z.leb_spec (nWordsTotal m) (Z.of_nat (S (S k)) * (32768 - 1)));
      try reflexivity; lia.
Qed.

(** [k >= 1] handler runs that pass the level check, one straight after the
    other with no step of the polling context in between, from [BOS] or
    [EOS] with a count of [n]: the count left is
    [max 0 (n - k * (NDPWORDS - 1))], and [state] is [READY] if
    [n <= k * (NDPWORDS - 1)] and [EOS] otherwise. *)
Lemma drain_calls_count dp_lev k m :
  dp_lev <> 1 -> 0 <= nWordsTotal m < 2 ^ 32 ->
  state m = BOS \/ state m = EOS ->
  (1 <= k)%nat ->
  nWordsTotal (drain_calls dp_lev k m) =
    Z.max 0 (nWordsTotal m - Z.of_nat k * (NDPWORDS - 1)) /\
  state (drain_calls dp_lev k m) = drained_state (nWordsTotal m) k /\
  (state (drain_calls dp_lev k m) = READY <->
   nWordsTotal (drain_calls dp_lev k m) = 0).
Proof.
  intros Hlev Hn Hst Hk. destruct k as [| k]; [lia |].
  destruct (drain_calls_count_aux dp_lev k m Hlev Hn (or_introl Hst)) as (H1 & H2).
  split; [exact H1 | split; [exact H2 |]].
  rewrite H1, H2. unfold drained_state, NDPWORDS.
  destruct (Z.leb_spec (nWordsTotal m) (Z.of_nat (S k) * (32768 - 1))); split;
    intros Hx; try reflexivity; try discriminate; lia.
Qed.

Lemma drain_calls_count_witness :
  nWordsTotal (drain_calls 0 1 after_one_record) = 0 /\
  state (drain_calls 0 1 after_one_record) = READY.
Proof.
  assert (Hlev : 0 <> 1) by lia.
  assert (Hn : 0 <= nWordsTotal after_one_record < 2 ^ 32)
    by (vm_compute; split; congruence).
  assert (Hst : state after_one_record = BOS \/ state after_one_record = EOS)
    by (left; vm_compute; reflexivity).
  destruct (drain_calls_count 0 1 after_one_record Hlev Hn Hst (le_n 1))
    as (H1 & H2 & _).
  split.
  - refine (eq_trans H1 _). vm_compute. reflexivity.
  - refine (eq_trans H2 _). vm_compute. reflexivity.
Defined.

(** * The start of a spill *)

Ltac sixteen l :=
  do 16 (destruct l as [| ? l]; [discriminate |]);
  destruct l; [| discriminate].

Ltac sixteen_tail l :=
  do 15 (destruct l as [| ? l]; [discriminate |]);
  destruct l; [| discriminate].

(** X1.  When [main] finds [state = READY], the 68 steps through [init] and
    the prologue of [beamOnTransfer] leave the ingest loop at line 115 in
    [BOS] with a zero count, the write cursor at [sdStartAddr] and the bank
    cursor at 0; every bank's header is cleared and nothing else in memory
    is touched; the start table is rebuilt whatever it held, and so is the
    last-address table except for entry 0, which keeps its old value. *)
Theorem spill_starts_clean m :
  pc m = L320 -> state m = READY ->
  length (dpBankStartAddr m) = 16%nat -> length (dpBankLastAddr m) = 16%nat ->
  let m' := poll_n 68 m in
  pc m' = L115 /\ state m' = BOS /\ nWordsTotal m' = 0 /\
  sdAddr m' = sdStartAddr /\ currentDPBank m' = 0 /\
  dpBankStartAddr m' = bank_start_table /\
  dpBankLastAddr m' = tbl_get (dpBankLastAddr m) 0 :: tl bank_last_table /\
  currentSDAddr m' = currentSDAddr m /\
  (forall k, 0 <= k < NBANKS -> load (mem m') (bank k) = 0) /\
  (forall a, (forall k, 0 <= k < NBANKS -> a <> bank k) -> mem m' a = mem m a).
Proof.
  intros Hpc Hst Hs Hl.
  destruct m as [st n s l c mm p ii sd cur h dp nw ev i0 ih].
  cbn in Hpc, Hst, Hs, Hl. subst p st.
  sixteen s. sixteen l. cbv zeta.
  do 8 (split; [vm_compute; reflexivity |]).
  split.
  - intros k Hk. unfold NBANKS in Hk.
    assert (Hc : k = 0 \/ k = 1 \/ k = 2 \/ k = 3 \/ k = 4 \/ k = 5 \/ k = 6 \/ k = 7 \/
                 k = 8 \/ k = 9 \/ k = 10 \/ k = 11 \/ k = 12 \/ k = 13 \/ k = 14 \/
                 k = 15) by lia.
    clear Hk.
    repeat (destruct Hc as [-> | Hc]; [vm_compute; reflexivity |]).
    subst k. vm_compute. reflexivity.
  - intros a Ha.
    assert (Hb : Forall (fun b => a <> b) bank_start_table).
    { unfold bank_start_table.
      repeat (constructor;
              [first [ apply (Ha 0); vm_compute; split; congruence
                     | apply (Ha 1); vm_compute; split; congruence
                     | apply (Ha 2); vm_compute; split; congruence
                     | apply (Ha 3); vm_compute; split; congruence
                     | apply (Ha 4); vm_compute; split; congruence
                     | apply (Ha 5); vm_compute; split; congruence
                     | apply (Ha 6); vm_compute; split; congruence
                     | apply (Ha 7); vm_compute; split; congruence
                     | apply (Ha 8); vm_compute; split; congruence
                     | apply (Ha 9); vm_compute; split; congruence
                     | apply (Ha 10); vm_compute; split; congruence
                     | apply (Ha 11); vm_compute; split; congruence
                     | apply (Ha 12); vm_compute; split; congruence
                     | apply (Ha 13); vm_compute; split; congruence
                     | apply (Ha 14); vm_compute; split; congruence
                     | apply (Ha 15); vm_compute; split; congruence ] |]).
      constructor. }
    clear Ha. unfold bank_start_table in Hb.
    repeat match goal with
           | H : Forall _ (_ :: _) |- _ => inversion H; subst; clear H
           end.
    cbv -[store]. unfold store.
    repeat match goal with
           | |- context [a =? ?c] =>
               destruct (Z.eqb_spec a c); [contradiction |]
           end.
    reflexivity.
Qed.

Lemma spill_starts_clean_witness :
  pc (poll_n 68 (boot zero_mem)) = L115 /\
  state (poll_n 68 (boot zero_mem)) = BOS /\
  dpBankStartAddr (poll_n 68 (boot zero_mem)) = bank_start_table.
Proof.
  destruct (spill_starts_clean (boot zero_mem) eq_refl eq_refl eq_refl eq_refl)
    as (H1 & H2 & _ & _ & _ & H6 & _).
  split; [exact H1 | split; [exact H2 | exact H6]].
Defined.

(** * The bank tables and the bank cursor *)

Lemma nth_set_nth_same (t : list Z) : forall n v,
  (n < length t)%nat -> nth n (set_nth n v t) 0 = v.
Proof.
  induction t as [| x t IH]; intros n v Hn; [cbn in Hn; lia |].
  destruct n as [| n]; [reflexivity |]. cbn in *. apply IH. lia.
Qed.

Lemma nth_set_nth_other (t : list Z) : forall n k v,
  k <> n -> nth k (set_nth n v t) 0 = nth k t 0.
Proof.
  induction t as [| x t IH]; intros n k v Hk.
  - destruct n; reflexivity.
  - destruct n as [| n], k as [| k]; try reflexivity; [contradiction |].
    cbn. apply IH. lia.
Qed.

Lemma length_set_nth (t : list Z) : forall n v, length (set_nth n v t) = length t.
Proof.
  induction t as [| x t IH]; intros n v; [destruct n; reflexivity |].
  destruct n; cbn; [reflexivity | now rewrite IH].
Qed.

Lemma tbl_get_set_same t k v :
  0 <= k < Z.of_nat (length t) -> tbl_get (tbl_set t k v) k = v.
Proof. intros Hk. unfold tbl_get, tbl_set. apply nth_set_nth_same. lia. Qed.

Lemma tbl_get_set_other t j k v :
  0 <= j -> 0 <= k -> k <> j -> tbl_get (tbl_set t j v) k = tbl_get t k.
Proof. intros Hj Hk Hne. unfold tbl_get, tbl_set. apply nth_set_nth_other. lia. Qed.

Lemma length_tbl_set t k v : length (tbl_set t k v) = length t.
Proof. apply length_set_nth. Qed.

Lemma land_bankid x : 0 <= Z.land x BANKIDMASK < 16.
Proof.
  unfold BANKIDMASK. change 0x0000000f with (Z.ones 4).
  rewrite Z.land_ones by lia. apply Z.mod_pos_bound. reflexivity.
Qed.

Lemma land_bankid_mod x : Z.land x BANKIDMASK = x mod 16.
Proof.
  unfold BANKIDMASK. change 0x0000000f with (Z.ones 4).
  now rewrite Z.land_ones by lia.
Qed.

Lemma padd_bank k n :
  0 <= k < 16 -> 0 <= n <= 1024 -> padd (bank k) n = bank k + 4 * n.
Proof.
  intros Hk Hn. apply padd_small.
  unfold bank, dpStartAddr, NWORDSPERBANK. lia.
Qed.

Lemma beamOff_firstEntry_fields m :
  pc (beamOff_firstEntry m) = pc m /\
  init_i (beamOff_firstEntry m) = init_i m /\
  currentDPBank (beamOff_firstEntry m) = currentDPBank m /\
  dpBankStartAddr (beamOff_firstEntry m) = dpBankStartAddr m /\
  dpBankLastAddr (beamOff_firstEntry m) = dpBankLastAddr m.
Proof. unfold beamOff_firstEntry. destruct (state m =? BOS); repeat split. Qed.

Lemma beamOff_drain_fields m :
  pc (beamOff_drain m) = pc m /\
  init_i (beamOff_drain m) = init_i m /\
  currentDPBank (beamOff_drain m) = currentDPBank m /\
  dpBankStartAddr (beamOff_drain m) = dpBankStartAddr m /\
  dpBankLastAddr (beamOff_drain m) = dpBankLastAddr m.
Proof. unfold beamOff_drain. destruct (wrap32 _ =? 0); repeat split. Qed.

Lemma tables_inv_fields m m' :
  pc m' = pc m -> init_i m' = init_i m -> currentDPBank m' = currentDPBank m ->
  dpBankStartAddr m' = dpBankStartAddr m -> dpBankLastAddr m' = dpBankLastAddr m ->
  tables_inv m -> tables_inv m'.
Proof.
  intros H1 H2 H3 H4 H5. unfold tables_inv, filled. now rewrite H1, H2, H3, H4, H5.
Qed.

Ltac head3 := split; [assumption | split; [assumption | split; [assumption |]]].

Lemma poll_tables_inv m : tables_inv m -> tables_inv (poll m).
Proof.
  intros (Hls & Hll & Hl0 & Hpc). unfold tables_inv, poll.
  destruct (pc m) eqn:E; cbn [exec].
  - (* L320 *)
    destruct (state m =? READY); fields; rewrite ?E; auto.
  - (* L79 *)
    fields. rewrite length_tbl_set. head3.
    apply tbl_get_set_same. lia.
  - (* L80 *)
    fields. head3.
    split; [lia |]. intros k Hk. assert (k = 0) by lia. subst k.
    fields. split; [| lia]. rewrite Hpc. unfold bank. lia.
  - (* L81 *)
    destruct Hpc as (Hi & Hf).
    destruct (Z.ltb_spec (init_i m) NBANKS) as [Hlt | Hge]; unfold NBANKS in *; fields;
      head3.
    + split; [lia | exact Hf].
    + replace 16 with (init_i m) by lia. exact Hf.
  - (* L83 *)
    destruct Hpc as (Hi & Hf). unfold filled in *. fields. rewrite length_tbl_set.
    head3. split; [exact Hi |].
    destruct (Hf (init_i m - 1)) as (Hprev & _); [lia |].
    split.
    + intros k Hk. rewrite tbl_get_set_other by lia. apply Hf. lia.
    + rewrite tbl_get_set_same by lia. rewrite Hprev.
      rewrite padd_bank by (unfold NWORDSPERBANK; lia).
      unfold bank, NWORDSPERBANK. lia.
  - (* L84 *)
    destruct Hpc as (Hi & Hf & Hs). unfold filled in *. fields.
    rewrite length_tbl_set.
    split; [assumption | split; [assumption |]].
    split; [rewrite tbl_get_set_other by lia; assumption |].
    split; [exact Hi |].
    intros k Hk. destruct (Z.eq_dec k (init_i m)) as [-> | Hne].
    + split; [exact Hs |]. intros _.
      rewrite tbl_get_set_same by lia. rewrite Hs.
      rewrite padd_bank by (unfold NWORDSPERBANK; lia). reflexivity.
    + rewrite tbl_get_set_other by lia. apply Hf. lia.
  - (* L87 *)
    destruct Hpc as (Hi & Hf). unfold filled in *. fields.
    head3. split; [lia | exact Hf].
  - (* L91 *) fields. auto.
  - (* L94 *) fields. auto.
  - (* L99 *) fields. auto.
  - (* L113 *)
    fields. head3. split; [exact Hpc | lia].
  - (* L115 *)
    destruct (state m =? BOS); fields; head3; [exact Hpc | exact (proj1 Hpc)].
  - fields. auto.
  - destruct (header m =? 0); fields; auto.
  - (* L121 *)
    fields. head3. split; [exact (proj1 Hpc) | apply land_bankid].
  - fields. auto.
  - destruct (negb (state m =? BOS)); fields; auto.
  - fields. auto.
  - fields. auto.
  - fields. auto.
  - fields. auto.
  - fields. auto.
  - destruct (negb (i m =? 0)); fields; auto.
  - fields. auto.
  - fields. auto.
  - fields. auto.
  - (* L161 *)
    fields. head3. split; [exact (proj1 Hpc) | apply land_bankid].
  - fields. auto.
  - (* L173 *) fields. auto.
Qed.

Lemma step_tables_inv e m : tables_inv m -> tables_inv (step e m).
Proof.
  intros Hinv. destruct e as [| lev | | a v]; cbn [step].
  - destruct (in_handler m); [assumption | now apply poll_tables_inv].
  - destruct (in_handler m); [assumption |].
    destruct (lev =? 1); [assumption |].
    destruct (beamOff_firstEntry_fields m) as (H1 & H2 & H3 & H4 & H5).
    apply (tables_inv_fields m); assumption.
  - destruct (in_handler m); [| assumption].
    destruct (beamOff_drain_fields m) as (H1 & H2 & H3 & H4 & H5).
    apply (tables_inv_fields m); assumption.
  - destruct (in_dp a); [| assumption].
    apply (tables_inv_fields m); reflexivity || assumption.
Qed.

Lemma run_tables_inv evs : forall m, tables_inv m -> tables_inv (run evs m).
Proof.
  induction evs as [| e evs IH]; intros m Hinv; [assumption |].
  cbn [run]. apply IH. now apply step_tables_inv.
Qed.

Lemma filled_banks_ready m :
  length (dpBankStartAddr m) = 16%nat -> length (dpBankLastAddr m) = 16%nat ->
  tbl_get (dpBankLastAddr m) 0 = 0 -> filled m 16 -> banks_ready m.
Proof.
  intros Hls Hll Hl0 Hf. unfold banks_ready, filled in *.
  destruct (dpBankStartAddr m) as [| ? s]; [discriminate |].
  destruct (dpBankLastAddr m) as [| ? l]; [discriminate |].
  sixteen_tail s. sixteen_tail l.
  pose proof (Hf 0 ltac:(lia)) as (A0 & _).
  pose proof (Hf 1 ltac:(lia)) as (A1 & B1). specialize (B1 ltac:(lia)).
  pose proof (Hf 2 ltac:(lia)) as (A2 & B2). specialize (B2 ltac:(lia)).
  pose proof (Hf 3 ltac:(lia)) as (A3 & B3). specialize (B3 ltac:(lia)).
  pose proof (Hf 4 ltac:(lia)) as (A4 & B4). specialize (B4 ltac:(lia)).
  pose proof (Hf 5 ltac:(lia)) as (A5 & B5). specialize (B5 ltac:(lia)).
  pose proof (Hf 6 ltac:(lia)) as (A6 & B6). specialize (B6 ltac:(lia)).
  pose proof (Hf 7 ltac:(lia)) as (A7 & B7). specialize (B7 ltac:(lia)).
  pose proof (Hf 8 ltac:(lia)) as (A8 & B8). specialize (B8 ltac:(lia)).
  pose proof (Hf 9 ltac:(lia)) as (A9 & B9). specialize (B9 ltac:(lia)).
  pose proof (Hf 10 ltac:(lia)) as (A10 & B10). specialize (B10 ltac:(lia)).
  pose proof (Hf 11 ltac:(lia)) as (A11 & B11). specialize (B11 ltac:(lia)).
  pose proof (Hf 12 ltac:(lia)) as (A12 & B12). specialize (B12 ltac:(lia)).
  pose proof (Hf 13 ltac:(lia)) as (A13 & B13). specialize (B13 ltac:(lia)).
  pose proof (Hf 14 ltac:(lia)) as (A14 & B14). specialize (B14 ltac:(lia)).
  pose proof (Hf 15 ltac:(lia)) as (A15 & B15). specialize (B15 ltac:(lia)).
  clear Hf. cbv in Hl0, A0, A1, A2, A3, A4, A5, A6, A7, A8, A9, A10, A11, A12, A13, A14,
    A15, B1, B2, B3, B4, B5, B6, B7, B8, B9, B10, B11, B12, B13, B14, B15.
  subst. split; reflexivity.
Qed.

(** X7.  In every run from boot, whatever the schedule of polling steps,
    handler runs and hardware writes: entry 0 of [dpBankLastAddr] is 0
    throughout, and whenever the polling context is inside the ingest loop
    both tables are as [init] builds them and the bank cursor is between 0
    and 15. *)
Theorem tables_ready_in_loop mm evs :
  let m := run evs (boot mm) in
  tbl_get (dpBankLastAddr m) 0 = 0 /\
  (in_loop (pc m) = true -> banks_ready m /\ 0 <= currentDPBank m < NBANKS).
Proof.
  cbv zeta.
  assert (H0 : tables_inv (boot mm)) by (repeat split).
  pose proof (run_tables_inv evs (boot mm) H0) as (Hls & Hll & Hl0 & Hpc).
  split; [exact Hl0 |]. intros Hloop.
  destruct (pc (run evs (boot mm))); try discriminate Hloop;
    (split; [apply filled_banks_ready; try assumption; exact (proj1 Hpc)
            | exact (proj2 Hpc)]).
Qed.

(** * Scanning the banks *)

Lemma poll_idle m0 m :
  (forall k, 0 <= k < 16 -> load (mem m0) (bank k) = 0) ->
  idle m0 m -> idle m0 (poll m).
Proof.
  intros Hz (Hsc & Hmem & Hst & Hn & Hsd & Hready & Hcur & Hh).
  assert (Hld : load (mem m) (tbl_get (dpBankStartAddr m) (currentDPBank m)) = 0)
    by (rewrite Hmem, tbl_get_bank_start by assumption; now apply Hz).
  unfold idle, poll.
  destruct (pc m) eqn:E; try discriminate Hsc; cbn [exec].
  - (* L115 *)
    rewrite Hst. cbn. fields.
    repeat (split; [assumption || reflexivity |]). intros [H | H]; discriminate.
  - (* L118 *)
    fields. repeat (split; [assumption || reflexivity |]). intros _. exact Hld.
  - (* L119 *)
    rewrite Hh by (left; reflexivity). cbn. fields.
    repeat (split; [assumption || reflexivity |]). intros [H | H]; discriminate.
  - (* L121 *)
    fields. do 6 (split; [assumption || reflexivity |]).
    split; [apply land_bankid | intros [H | H]; discriminate].
  - (* L122 *)
    fields. repeat (split; [assumption || reflexivity |]). intros _. exact Hld.
  - (* L124 *)
    rewrite Hst. cbn. fields.
    repeat (split; [assumption || reflexivity |]). intros _. apply Hh. now right.
Qed.

(** X5.  In [BOS] with every bank header zero, the ingest loop, left to
    run for any number of steps, stays in its scan (lines 115-124): it never
    stores to memory, never moves the write cursor or the count, and never
    leaves the loop. *)
Theorem empty_banks_keep_polling m j :
  pc m = L115 -> state m = BOS -> banks_ready m -> 0 <= currentDPBank m < NBANKS ->
  (forall k, 0 <= k < NBANKS -> load (mem m) (bank k) = 0) ->
  let m' := poll_n j m in
  scanning (pc m') = true /\ mem m' = mem m /\ state m' = BOS /\
  nWordsTotal m' = nWordsTotal m /\ sdAddr m' = sdAddr m.
Proof.
  intros Hpc Hst Hready Hcur Hz. cbv zeta.
  assert (H0 : idle m m).
  { unfold idle. rewrite Hpc.
    repeat (split; [assumption || reflexivity |]). intros [H | H]; discriminate. }
  assert (Hall : forall j m1, idle m m1 -> idle m (poll_n j m1)).
  { clear j. induction j as [| j IH]; intros m1 H1; [exact H1 |].
    rewrite poll_n_S. apply IH. now apply poll_idle. }
  destruct (Hall j m H0) as (H1 & H2 & H3 & H4 & H5 & _).
  repeat split; assumption.
Qed.

Lemma empty_banks_keep_polling_witness :
  scanning (pc (poll_n 1000 spill_start)) = true /\
  sdAddr (poll_n 1000 spill_start) = sdStartAddr /\
  nWordsTotal (poll_n 1000 spill_start) = 0.
Proof.
  assert (Hpc : pc spill_start = L115) by (vm_compute; reflexivity).
  assert (Hst : state spill_start = BOS) by (vm_compute; reflexivity).
  assert (Hready : banks_ready spill_start) by (split; vm_compute; reflexivity).
  assert (Hcur : 0 <= currentDPBank spill_start < NBANKS)
    by (vm_compute; split; [discriminate | reflexivity]).
  assert (Hz : forall k, 0 <= k < NBANKS -> load (mem spill_start) (bank k) = 0).
  { intros k Hk. unfold NBANKS in Hk.
    assert (Hc : k = 0 \/ k = 1 \/ k = 2 \/ k = 3 \/ k = 4 \/ k = 5 \/ k = 6 \/ k = 7 \/
                 k = 8 \/ k = 9 \/ k = 10 \/ k = 11 \/ k = 12 \/ k = 13 \/ k = 14 \/
                 k = 15) by lia.
    clear Hk.
    repeat (destruct Hc as [-> | Hc]; [vm_compute; reflexivity |]).
    subst k. vm_compute. reflexivity. }
  destruct (empty_banks_keep_polling spill_start 1000 Hpc Hst Hready Hcur Hz)
    as (H1 & _ & _ & H4 & H5).
  split; [exact H1 | split].
  - refine (eq_trans H5 _). vm_compute. reflexivity.
  - refine (eq_trans H4 _). vm_compute. reflexivity.
Defined.

Lemma next_bank_mod c : next_bank c = (c + 1) mod 16.
Proof. apply land_bankid_mod. Qed.

Lemma iter_next_bank k : forall c,
  0 <= c < 16 -> Nat.iter k next_bank c = (c + Z.of_nat k) mod 16.
Proof.
  induction k as [| k IH]; intros c Hc.
  - cbn. rewrite Z.add_0_r. symmetry. apply Z.mod_small. lia.
  - rewrite Nat.iter_succ, IH by assumption. rewrite next_bank_mod.
    rewrite Zplus_mod_idemp_l. f_equal. lia.
Qed.

(** X6.  The banks are examined in round-robin order.  After an empty bank
    [c] the scan looks at bank [(c + 1) mod 16] next, storing nothing; after
    a consumed bank [c] (header cleared) the cursor is at [(c + 1) mod 16]
    too; and [k] such moves from bank [c] lead to bank [(c + k) mod 16], so
    16 of them visit every bank once and come back to [c]. *)
Theorem bank_cursor_round_robin :
  (forall m,
     pc m = L119 -> header m = 0 -> state m = BOS ->
     banks_ready m -> 0 <= currentDPBank m < NBANKS ->
     let m' := poll_n 4 m in
     pc m' = L119 /\
     currentDPBank m' = next_bank (currentDPBank m) /\
     header m' = load (mem m) (bank (next_bank (currentDPBank m))) /\
     mem m' = mem m) /\
  (forall m,
     pc m = L118 -> banks_ready m -> 0 <= currentDPBank m < NBANKS ->
     let n := word_count (load (mem m) (bank (currentDPBank m))) in
     1 <= n ->
     sdStartAddr <= sdAddr m -> sdAddr m + 4 * (n + 1) <= sdEndAddr ->
     let m' := poll_n (Z.to_nat (2 * n + 10)) m in
     pc m' = L115 /\
     currentDPBank m' = next_bank (currentDPBank m) /\
     load (mem m') (bank (currentDPBank m)) = 0) /\
  (forall c k,
     0 <= c < NBANKS ->
     Nat.iter k next_bank c = (c + Z.of_nat k) mod 16 /\
     Nat.iter 16 next_bank c = c).
Proof.
  split; [| split].
  - intros m Hpc Hh Hst Hready Hcur. cbv zeta.
    change 4%nat with (S (S (S (S O)))).
    rewrite (poll_n_step L119) by assumption. cbn [exec]. rewrite Hh. cbn [Z.eqb].
    poll1 L121. poll1 L122. poll1 L124. rewrite Hst. cbn [Z.eqb BOS negb].
    rewrite poll_n_O. fields.
    split; [reflexivity | split; [reflexivity | split; [| reflexivity]]].
    pose proof (land_bankid (currentDPBank m + 1)) as Hnb.
    rewrite (tbl_get_bank_start m _ Hready Hnb).
    reflexivity.
  - intros m Hpc Hready Hcur n Hn Hlo Hhi m'.
    assert (Hb : tbl_get (dpBankStartAddr m) (currentDPBank m) = bank (currentDPBank m))
      by (apply tbl_get_bank_start; assumption).
    pose proof (record_staged m Hpc Hready Hcur) as Hrec. cbv zeta in Hrec.
    rewrite Hb in Hrec. fold n in Hrec.
    destruct (Hrec Hn Hlo Hhi) as (H1 & _ & _ & _ & _ & H6 & _ & H8).
    pose proof (word_count_range (load (mem m) (bank (currentDPBank m)))) as Hwc.
    fold n in Hwc.
    assert (Hm' : m' = poll (poll_n (Z.to_nat (2 * n + 9)) m)).
    { unfold m'. rewrite <- poll_n_succ_r. f_equal. lia. }
    rewrite Hm', (poll_at L164) by assumption. cbn [exec]. fields.
    split; [reflexivity | split; [exact H6 | exact H8]].
  - intros c k Hc. split; [now apply iter_next_bank |].
    rewrite iter_next_bank by assumption.
    change (Z.of_nat 16) with (0 + 1 * 16). rewrite Z.add_assoc, Z.add_0_r.
    rewrite Z.mod_add by lia. apply Z.mod_small. exact Hc.
Qed.

Lemma bank_cursor_round_robin_witness :
  currentDPBank (poll_n 14 at_full_bank0) = 1 /\
  load (mem (poll_n 14 at_full_bank0)) (bank 0) = 0 /\
  Nat.iter 16 next_bank 5 = 5.
Proof.
  destruct bank_cursor_round_robin as (_ & Hrec & Hit).
  assert (Hpc : pc at_full_bank0 = L118) by (vm_compute; reflexivity).
  assert (Hready : banks_ready at_full_bank0) by (split; vm_compute; reflexivity).
  assert (Hcur : 0 <= currentDPBank at_full_bank0 < NBANKS)
    by (vm_compute; split; [discriminate | reflexivity]).
  assert (Hn : 1 <= word_count
                 (load (mem at_full_bank0) (bank (currentDPBank at_full_bank0))))
    by (vm_compute; discriminate).
  assert (Hlo : sdStartAddr <= sdAddr at_full_bank0) by (vm_compute; discriminate).
  assert (Hhi : sdAddr at_full_bank0 +
                4 * (word_count
                       (load (mem at_full_bank0) (bank (currentDPBank at_full_bank0)))
                     + 1) <= sdEndAddr)
    by (vm_compute; discriminate).
  pose proof (Hrec at_full_bank0 Hpc Hready Hcur Hn Hlo Hhi) as (_ & H2 & H3).
  assert (H16 : 0 <= 5 < NBANKS) by (unfold NBANKS; lia).
  pose proof (proj2 (Hit 5 16%nat H16)) as H4.
  clear - H2 H3 H4. revert H2 H3. vm_compute. intros H2 H3.
  split; [exact H2 | split; [exact H3 | exact H4]].
Defined.

(** * The frame of an ingested record *)

(** X9.  Ingesting a record (header count [n >= 1], fitting the buffer)
    writes the [n + 1] staging words of that record and the bank's header
    word, and nothing else: the bank's payload and tag, the records staged
    before it, the handler's read cursor, [state] and the tables are as they
    were. *)
Theorem ingest_record_frame m :
  pc m = L118 -> banks_ready m -> 0 <= currentDPBank m < NBANKS ->
  let base := bank (currentDPBank m) in
  let n := word_count (load (mem m) base) in
  1 <= n ->
  sdStartAddr <= sdAddr m -> sdAddr m + 4 * (n + 1) <= sdEndAddr ->
  let m' := poll_n (Z.to_nat (2 * n + 10)) m in
  (forall a, a < sdAddr m \/ sdAddr m + 4 * (n + 1) <= a -> a <> base ->
     mem m' a = mem m a) /\
  state m' = state m /\ currentSDAddr m' = currentSDAddr m /\
  in_handler m' = in_handler m /\
  dpBankStartAddr m' = dpBankStartAddr m /\ dpBankLastAddr m' = dpBankLastAddr m.
Proof.
  intros Hpc Hready Hcur base n Hn Hlo Hhi m'.
  assert (Hb : tbl_get (dpBankStartAddr m) (currentDPBank m) = base)
    by (apply tbl_get_bank_start; assumption).
  destruct (banks_ready_addr m (currentDPBank m) Hready Hcur) as (Hbb & Ht).
  rewrite Hb in Hbb.
  pose proof (word_count_range (load (mem m) base)) as Hwc. fold n in Hwc.
  assert (Hh : load (mem m) base <> 0).
  { intros E. unfold n in Hn. rewrite E in Hn. vm_compute in Hn. auto. }
  pose proof (record_run m Hpc) as Hrun. cbv zeta in Hrun.
  rewrite Hb in Hrun. fold n in Hrun.
  unfold sdStartAddr, sdEndAddr, dpStartAddr in *.
  destruct Hrun as (H1 & H2 & _ & H4 & H5 & H6 & H7 & _ & _ & _ & _ & _ & _ & _ & H15);
    unfold sdStartAddr, dpStartAddr; try lia.
  assert (Hm' : m' = poll (poll_n (Z.to_nat (2 * n + 9)) m)).
  { unfold m'. rewrite <- poll_n_succ_r. f_equal. lia. }
  rewrite Hm', (poll_at L164) by assumption. cbn [exec]. fields.
  split; [exact H15 | repeat split; assumption].
Qed.

Lemma ingest_record_frame_witness :
  load (mem (poll_n 14 at_full_bank0)) (bank 0 + 4) = 6 /\
  state (poll_n 14 at_full_bank0) = BOS.
Proof.
  assert (Hpc : pc at_full_bank0 = L118) by (vm_compute; reflexivity).
  assert (Hready : banks_ready at_full_bank0) by (split; vm_compute; reflexivity).
  assert (Hcur : 0 <= currentDPBank at_full_bank0 < NBANKS)
    by (vm_compute; split; [discriminate | reflexivity]).
  assert (Hn : 1 <= word_count
                 (load (mem at_full_bank0) (bank (currentDPBank at_full_bank0))))
    by (vm_compute; discriminate).
  assert (Hlo : sdStartAddr <= sdAddr at_full_bank0) by (vm_compute; discriminate).
  assert (Hhi : sdAddr at_full_bank0 +
                4 * (word_count
                       (load (mem at_full_bank0) (bank (currentDPBank at_full_bank0)))
                     + 1) <= sdEndAddr)
    by (vm_compute; discriminate).
  pose proof (ingest_record_frame at_full_bank0 Hpc Hready Hcur Hn Hlo Hhi)
    as (Hmem & Hst & _).
  assert (Ha : bank 0 + 4 < sdAddr at_full_bank0 \/
               sdAddr at_full_bank0 +
               4 * (word_count
                      (load (mem at_full_bank0) (bank (currentDPBank at_full_bank0)))
                    + 1) <= bank 0 + 4)
    by (right; vm_compute; discriminate).
  assert (Hne : bank 0 + 4 <> bank (currentDPBank at_full_bank0))
    by (vm_compute; discriminate).
  specialize (Hmem (bank 0 + 4) Ha Hne).
  clear - Hmem Hst. split.
  - unfold load. refine (eq_trans (f_equal wrap32 Hmem) _). vm_compute. reflexivity.
  - refine (eq_trans Hst _). vm_compute. reflexivity.
Defined.

(** * The count stored at line 164 *)

Lemma poll_cursor_inv m acc :
  cursor_inv m acc -> in_loop (pc (poll m)) = true ->
  cursor_inv (poll m)
    (acc + words_of (match pc m with L164 => [header m] | _ => [] end)) /\
  (pc m = L164 ->
   nWordsTotal (poll m) =
   ptr_diff (padd sdStartAddr (acc + (word_count (header m) + 1))) sdStartAddr).
Proof.
  intros (Hloop & Hsd & Hcnt) Hnext.
  unfold cursor_inv, poll, progress in *.
  destruct (pc m) eqn:Hpc; try discriminate Hloop; cbn [exec words_of fold_right] in *;
    rewrite ?Z.add_0_r in *.
  all: try (destruct (state m =? BOS); cbn [negb] in * ).
  all: try (destruct (header m =? 0)).
  all: try (destruct (Z.eqb_spec (i m) 0); cbn [negb] in * ).
  all: revert Hnext; fields; cbn [in_loop counted]; intros Hnext;
       try discriminate Hnext.
  all: (split; [| try (intros; discriminate)]).
  all: repeat match goal with |- _ /\ _ => split end; try reflexivity; try assumption;
       try (intros; discriminate); try (intros _; apply Hcnt; reflexivity).
  all: rewrite ?Hsd, ?padd_padd.
  all: try (f_equal; lia).
  all: try apply padd_loop_trip.
  all: try (intros _).
  all: rewrite (Hcnt eq_refl).
  all: first [apply padd_record_end | f_equal; apply padd_record_end].
Qed.

Lemma cursor_inv_fields m m' acc :
  pc m' = pc m -> sdAddr m' = sdAddr m -> nWords m' = nWords m ->
  i m' = i m -> header m' = header m ->
  cursor_inv m acc -> cursor_inv m' acc.
Proof.
  intros H1 H2 H3 H4 H5. unfold cursor_inv, progress.
  now rewrite H1, H2, H3, H4, H5.
Qed.

Lemma beamOff_firstEntry_locals m :
  pc (beamOff_firstEntry m) = pc m /\ sdAddr (beamOff_firstEntry m) = sdAddr m /\
  nWords (beamOff_firstEntry m) = nWords m /\ i (beamOff_firstEntry m) = i m /\
  header (beamOff_firstEntry m) = header m.
Proof. unfold beamOff_firstEntry. destruct (state m =? BOS); repeat split. Qed.

Lemma beamOff_drain_locals m :
  pc (beamOff_drain m) = pc m /\ sdAddr (beamOff_drain m) = sdAddr m /\
  nWords (beamOff_drain m) = nWords m /\ i (beamOff_drain m) = i m /\
  header (beamOff_drain m) = header m.
Proof. unfold beamOff_drain. destruct (wrap32 _ =? 0); repeat split. Qed.

Lemma step_cursor_inv e m acc :
  cursor_inv m acc -> in_loop (pc (step e m)) = true ->
  cursor_inv (step e m) (acc + words_of (if completes e m then [header m] else [])) /\
  (completes e m = true ->
   nWordsTotal (step e m) =
   ptr_diff (padd sdStartAddr (acc + (word_count (header m) + 1))) sdStartAddr).
Proof.
  intros K Hnext.
  assert (Hsame : cursor_inv m (acc + words_of []) /\
                  (false = true ->
                   nWordsTotal m =
                   ptr_diff (padd sdStartAddr (acc + (word_count (header m) + 1)))
                     sdStartAddr)).
  { cbn [words_of fold_right]. rewrite Z.add_0_r. split; [exact K | discriminate]. }
  destruct e as [| lev | | a v]; cbn [step] in *.
  - destruct (in_handler m) eqn:Hih.
    + replace (completes Poll m) with false; [exact Hsame |].
      unfold completes. rewrite Hih. now destruct (pc m).
    + destruct (poll_cursor_inv m acc K Hnext) as [A B].
      unfold completes. rewrite Hih. cbn [negb].
      destruct (pc m); (split; [exact A | intros; first [discriminate | now apply B]]).
  - change (completes (IrqRaise lev) m) with false.
    destruct (in_handler m); [exact Hsame |].
    destruct (lev =? 1); [exact Hsame |].
    split; [| discriminate]. cbn [words_of fold_right]. rewrite Z.add_0_r.
    destruct (beamOff_firstEntry_locals m) as (H1 & H2 & H3 & H4 & H5).
    apply (cursor_inv_fields m); assumption.
  - change (completes IrqComplete m) with false.
    destruct (in_handler m); [| exact Hsame].
    split; [| discriminate]. cbn [words_of fold_right]. rewrite Z.add_0_r.
    destruct (beamOff_drain_locals m) as (H1 & H2 & H3 & H4 & H5).
    apply (cursor_inv_fields m); assumption.
  - change (completes (HwWrite a v) m) with false.
    destruct (in_dp a); [| exact Hsame].
    split; [| discriminate]. cbn [words_of fold_right]. rewrite Z.add_0_r.
    apply (cursor_inv_fields m); reflexivity || assumption.
Qed.

Lemma run_cursor_inv evs : forall m acc,
  cursor_inv m acc -> stays_in_loop evs m = true ->
  cursor_inv (run evs m) (acc + words_of (consumed evs m)).
Proof.
  induction evs as [| e evs IH]; intros m acc K Hs.
  - cbn. now rewrite Z.add_0_r.
  - cbn [stays_in_loop] in Hs. apply andb_prop in Hs as [_ Hs].
    cbn [run consumed]. rewrite words_of_app, Z.add_assoc.
    apply IH; [| exact Hs].
    apply step_cursor_inv; [exact K |].
    destruct evs; cbn [stays_in_loop] in Hs; apply andb_prop in Hs; tauto.
Qed.

Lemma run_app evs1 : forall evs2 m, run (evs1 ++ evs2) m = run evs2 (run evs1 m).
Proof. induction evs1 as [| e evs1 IH]; intros evs2 m; [reflexivity | apply IH]. Qed.

Lemma consumed_app evs1 : forall evs2 m,
  consumed (evs1 ++ evs2) m = consumed evs1 m ++ consumed evs2 (run evs1 m).
Proof.
  induction evs1 as [| e evs1 IH]; intros evs2 m; [reflexivity |].
  cbn [app consumed run]. rewrite IH. apply app_assoc.
Qed.

Lemma stays_in_loop_app evs1 : forall evs2 m,
  stays_in_loop (evs1 ++ evs2) m = true ->
  stays_in_loop evs1 m = true /\ stays_in_loop evs2 (run evs1 m) = true.
Proof.
  induction evs1 as [| e evs1 IH]; intros evs2 m H.
  - cbn [app run] in *. split; [| exact H].
    cbn. destruct evs2; cbn [stays_in_loop] in H; apply andb_prop in H as [H _];
      now rewrite H.
  - cbn [app stays_in_loop run] in *. apply andb_prop in H as [H1 H2].
    destruct (IH evs2 (step e m) H2) as [A B]. now rewrite H1, A.
Qed.

(** X8.  Inside the ingest loop the write cursor depends only on the records
    ingested since the spill began, under every schedule, handler runs
    included; and the store of line 164 sets [nWordsTotal] to the size of all
    the records completed so far, so a drain that the handler has made in
    between is not reflected in the count afterwards. *)
Theorem count_store_ignores_drains evs e m0 :
  pc m0 = L115 -> sdAddr m0 = sdStartAddr ->
  stays_in_loop (evs ++ [e]) m0 = true ->
  let total := words_of (consumed (evs ++ [e]) m0) in
  total <= staging_capacity ->
  let m := run (evs ++ [e]) m0 in
  sdAddr m = padd sdStartAddr (total + progress m) /\
  (completes e (run evs m0) = true -> nWordsTotal m = total).
Proof.
  intros Hpc Hsd Hs total Hcap m.
  assert (K0 : cursor_inv m0 0).
  { unfold cursor_inv, progress. rewrite Hpc, Hsd. repeat split. discriminate. }
  destruct (stays_in_loop_app evs [e] m0 Hs) as [Hs1 Hs2].
  pose proof (run_cursor_inv evs m0 0 K0 Hs1) as K. rewrite Z.add_0_l in K.
  assert (Hnext : in_loop (pc (step e (run evs m0))) = true).
  { cbn [stays_in_loop] in Hs2. apply andb_prop in Hs2 as [_ Hs2].
    apply andb_prop in Hs2 as [Hs2 _]. exact Hs2. }
  destruct (step_cursor_inv e (run evs m0) _ K Hnext) as [(_ & A & _) B].
  assert (Htot : total =
                 words_of (consumed evs m0) +
                 words_of (if completes e (run evs m0)
                           then [header (run evs m0)] else [])).
  { unfold total. rewrite consumed_app, words_of_app. cbn [consumed].
    now rewrite app_nil_r. }
  assert (Hm : m = step e (run evs m0)) by (unfold m; now rewrite run_app).
  rewrite Hm, Htot. split; [exact A |].
  intros Hc. rewrite (B Hc). rewrite Hc. cbn [words_of fold_right].
  rewrite Z.add_0_r. apply ptr_diff_padd.
  rewrite Htot, Hc in Hcap. cbn [words_of fold_right] in Hcap.
  rewrite Z.add_0_r in Hcap.
  pose proof (words_of_nonneg (consumed evs m0)).
  pose proof (word_count_range (header (run evs m0))).
  unfold staging_capacity, sdEndAddr, sdStartAddr in Hcap.
  change ((602931200 - 536903680) / 4) with 16506880 in Hcap. lia.
Qed.

Lemma count_store_ignores_drains_witness :
  nWordsTotal (run drained_mid_record spill_start) = 0 /\
  state (run drained_mid_record spill_start) = READY /\
  nWordsTotal (run (drained_mid_record ++ [Poll]) spill_start) = 7.
Proof.
  assert (Hpc : pc spill_start = L115) by (vm_compute; reflexivity).
  assert (Hsd : sdAddr spill_start = sdStartAddr) by (vm_compute; reflexivity).
  assert (Hs : stays_in_loop (drained_mid_record ++ [Poll]) spill_start = true)
    by (vm_compute; reflexivity).
  assert (Hcap : words_of (consumed (drained_mid_record ++ [Poll]) spill_start)
                 <= staging_capacity) by (vm_compute; discriminate).
  destruct (count_store_ignores_drains drained_mid_record Poll spill_start
              Hpc Hsd Hs Hcap) as (_ & H).
  assert (Hc : completes Poll (run drained_mid_record spill_start) = true)
    by (vm_compute; reflexivity).
  split; [vm_compute; reflexivity | split; [vm_compute; reflexivity |]].
  refine (eq_trans (H Hc) _). vm_compute. reflexivity.
Defined.

(** * A spill handed over between two records *)

(** From line 115 with [state = READY] the polling context leaves the loop,
    returns to [main], and is back at line 115 of a new spill 70 steps
    later. *)
Lemma restart_after_drain m :
  pc m = L115 -> state m = READY -> in_handler m = false ->
  fresh_spill (run (repeat Poll 70) m).
Proof.
  intros Hpc Hst Hih.
  destruct m as [st n s l c mm p ii sd cur h dp nw ev i0 ih].
  cbn in Hpc, Hst, Hih. subst p st ih. unfold fresh_spill.
  split; [vm_compute; reflexivity |].
  split; [vm_compute; reflexivity |].
  split; [vm_compute; reflexivity |].
  split; vm_compute; reflexivity.
Qed.

(** X10.  The hand-over the design intends.  When the interrupt (pin low)
    arrives while the ingest loop is between two records (line 115) and the
    records of the spill amount to at most [NDPWORDS - 1] words, one handler
    run puts the count and every staged word, in staging order, into the
    mailbox, leaves [state = READY] with a zero count, and 70 steps of the
    polling context later a new spill has begun with an empty buffer. *)
Theorem interrupt_between_records evs m0 lev :
  fresh_spill m0 -> forallb beam_on evs = true ->
  pc (run evs m0) = L115 ->
  words_of (consumed evs m0) <= NDPWORDS - 1 ->
  lev <> 1 ->
  let m := run evs m0 in
  let n := Z.to_nat (words_of (consumed evs m0)) in
  let m1 := run [IrqRaise lev; IrqComplete] m in
  mailbox m1 (S n) = Z.of_nat n :: read_words (mem m) sdStartAddr n /\
  state m1 = READY /\ nWordsTotal m1 = 0 /\
  fresh_spill (run (repeat Poll 70) m1).
Proof.
  intros Hf Hq Hpc Htot Hlev m n m1.
  pose proof (words_of_nonneg (consumed evs m0)) as Hnn.
  destruct (run_ingesting evs m0 0 Hq (fresh_spill_ingesting m0 Hf))
    as (Hst & Hih & _ & Hn & _ & _).
  fold m in Hst, Hih, Hn. rewrite Z.add_0_l in Hn.
  rewrite ptr_diff_padd in Hn by (unfold NDPWORDS in Htot; lia).
  set (ma := set_in_handler true (set_currentSDAddr sdStartAddr (set_state EOS m))).
  assert (Hm1 : m1 = set_in_handler false (beamOff_drain ma)).
  { unfold m1, ma. cbn [run step]. rewrite Hih.
    destruct (Z.eqb_spec lev 1); [contradiction |].
    unfold beamOff_firstEntry. rewrite Hst. reflexivity. }
  assert (Hb : batch ma = Z.of_nat n).
  { rewrite batch_min. unfold ma; fields. rewrite Hn. unfold n.
    rewrite Z2Nat.id by lia. lia. }
  assert (Hna : nWordsTotal ma = Z.of_nat n)
    by (unfold ma; fields; rewrite Hn; unfold n; lia).
  destruct (beamOff_drain_spec ma) as (H1 & H2 & _ & _ & H5 & H6).
  { rewrite Hna. unfold NDPWORDS in Htot. lia. }
  { unfold ma; fields. lia. }
  { rewrite Hb. unfold ma; fields. unfold sdStartAddr, sdEndAddr, NDPWORDS in *. lia. }
  rewrite Hb, Hna in *. rewrite Z.sub_diag in *. cbn [Z.eqb] in H6.
  assert (Hmem : mem m1 = mem (beamOff_drain ma)) by (rewrite Hm1; reflexivity).
  split; [| split; [| split]].
  - unfold mailbox. cbn [read_words]. rewrite Hmem. f_equal; [exact H1 |].
    unfold sdStartAddr, NDPWORDS in *.
    apply read_words_ext; rewrite ?padd_small; unfold dpStartAddr; try lia.
    intros k Hk. specialize (H2 k Hk). unfold dpStartAddr in H2.
    replace (1342177280 + 4 * 1 + 4 * k) with (1342177280 + 4 * (k + 1)) by lia.
    rewrite H2. unfold ma; fields. reflexivity.
  - rewrite Hm1. fields. exact H6.
  - rewrite Hm1. fields. exact H5.
  - apply restart_after_drain.
    + rewrite Hm1. fields. rewrite beamOff_drain_pc. unfold ma; fields. exact Hpc.
    + rewrite Hm1. fields. exact H6.
    + rewrite Hm1. reflexivity.
Qed.

Lemma interrupt_between_records_witness :
  mailbox (run (one_record_staged ++ [IrqRaise 0; IrqComplete]) spill_start) 4 =
    [3; 2097152; 7; 9] /\
  state (run (one_record_staged ++ [IrqRaise 0; IrqComplete]) spill_start) = READY.
Proof.
  assert (Hf : fresh_spill spill_start) by (repeat split; vm_compute; reflexivity).
  assert (Hq : forallb beam_on one_record_staged = true) by (vm_compute; reflexivity).
  assert (Hpc : pc (run one_record_staged spill_start) = L115)
    by (vm_compute; reflexivity).
  assert (Htot : words_of (consumed one_record_staged spill_start) <= NDPWORDS - 1)
    by (vm_compute; discriminate).
  assert (Hlev : 0 <> 1) by lia.
  destruct (interrupt_between_records one_record_staged spill_start 0
              Hf Hq Hpc Htot Hlev) as (H1 & H2 & _).
  rewrite run_app. split.
  - refine (eq_trans _ (eq_trans H1 _)); vm_compute; reflexivity.
  - exact H2.
Defined.

(** * [main] between the spills *)

Lemma step_waiting m0 e m :
  state m0 <> READY -> beam_on e = true -> waiting m0 m ->
  waiting m0 (step e m) /\ completes e m = false.
Proof.
  intros Hst He (Hpc & Hih & Hs & Hn & Hc & Hsd & Ht1 & Ht2 & Hmem).
  assert (Hs' : (state m =? READY) = false) by (apply Z.eqb_neq; congruence).
  destruct e as [| lev | | a v]; cbn [step]; rewrite ?Hih.
  - split; [| unfold completes; now rewrite Hpc].
    unfold poll. rewrite Hpc. cbn [exec]. rewrite Hs'.
    repeat split; assumption.
  - cbn in He. rewrite He. split; [| reflexivity]. repeat split; assumption.
  - split; [| reflexivity]. repeat split; assumption.
  - split; [| reflexivity].
    destruct (in_dp a) eqn:Ea; [| repeat split; assumption].
    unfold waiting. fields. repeat split; try assumption.
    intros a' Ha'. unfold store.
    destruct (Z.eqb_spec a' a) as [-> | _]; [congruence | now apply Hmem].
Qed.

(** X11.  While [state] is not [READY], [main] spins at line 320: under
    every schedule of polling steps, hardware writes to the dual-port RAM
    and interrupts read with the pin high, the count, both cursors, the
    bank tables and all of memory outside the dual-port RAM stay as they
    are, and no record is ingested.  The words still staged are therefore
    moved by handler runs only. *)
Theorem main_waits_for_drain evs m :
  pc m = L320 -> state m <> READY -> in_handler m = false ->
  forallb beam_on evs = true ->
  waiting m (run evs m) /\ consumed evs m = [].
Proof.
  intros Hpc Hst Hih Hq.
  assert (H0 : waiting m m) by (repeat split; assumption).
  revert H0. generalize m at 2 4 5 as m1. clear Hpc Hih.
  induction evs as [| e evs IH]; intros m1 Hw.
  - split; [exact Hw | reflexivity].
  - cbn [forallb] in Hq. apply andb_prop in Hq as [He Hq].
    destruct (step_waiting m e m1 Hst He Hw) as [Hw' Hc].
    cbn [run consumed]. rewrite Hc. cbn [app]. now apply IH.
Qed.

Lemma main_waits_for_drain_witness :
  nWordsTotal (run (repeat Poll 50 ++ [HwWrite (bank 3) 5]) drain_pending) = 3 /\
  state (run (repeat Poll 50 ++ [HwWrite (bank 3) 5]) drain_pending) = EOS.
Proof.
  assert (Hpc : pc drain_pending = L320) by reflexivity.
  assert (Hst : state drain_pending <> READY) by (vm_compute; discriminate).
  assert (Hih : in_handler drain_pending = false) by reflexivity.
  assert (Hq : forallb beam_on (repeat Poll 50 ++ [HwWrite (bank 3) 5]) = true)
    by (vm_compute; reflexivity).
  destruct (main_waits_for_drain _ drain_pending Hpc Hst Hih Hq)
    as ((_ & _ & Hs & Hn & _) & _).
  split.
  - refine (eq_trans Hn _). vm_compute. reflexivity.
  - refine (eq_trans Hs _). vm_compute. reflexivity.
Defined.

(** * Draining while [main] waits *)

Lemma beamOff_drain_in_handler b m :
  beamOff_drain (set_in_handler b m) = set_in_handler b (beamOff_drain m).
Proof.
  unfold beamOff_drain, batch. fields.
  destruct (wrap32 _ =? 0); reflexivity.
Qed.

Lemma run_waiting m0 q : forall m,
  state m0 <> READY -> forallb beam_on q = true ->
  waiting m0 m -> waiting m0 (run q m).
Proof.
  induction q as [| e q IH]; intros m Hst Hq Hw; [exact Hw |].
  cbn [forallb] in Hq. apply andb_prop in Hq as [He Hq].
  cbn [run]. apply IH; [assumption | assumption |].
  now apply (step_waiting m0 e m Hst He).
Qed.

(** One handler run, first-entry block and batch, taken while [main] waits
    in [EOS]. *)
Lemma handler_run_waiting lev m :
  lev <> 1 -> pc m = L320 -> state m = EOS -> in_handler m = false ->
  0 <= nWordsTotal m < 2 ^ 32 ->
  let m' := run [IrqRaise lev; IrqComplete] m in
  pc m' = L320 /\ in_handler m' = false /\
  nWordsTotal m' = Z.max 0 (nWordsTotal m - (NDPWORDS - 1)) /\
  state m' = drained_state (nWordsTotal m) 1.
Proof.
  intros Hlev Hpc Hst Hih Hn. cbv zeta. cbn [run step]. rewrite Hih.
  destruct (Z.eqb_spec lev 1); [contradiction |].
  fields. rewrite beamOff_drain_in_handler. fields.
  destruct (beamOffTransfer_count lev m Hlev Hn (or_introl (or_intror Hst)))
    as (H1 & H2 & _).
  unfold beamOffTransfer in H1, H2.
  destruct (Z.eqb_spec lev 1); [contradiction |].
  split; [| split; [reflexivity | split; assumption]].
  rewrite beamOff_drain_pc. unfold beamOff_firstEntry.
  destruct (state m =? BOS); exact Hpc.
Qed.

Lemma drain_schedule_run lev qs : forall m,
  pc m = L320 -> state m = EOS -> in_handler m = false ->
  0 <= nWordsTotal m < 2 ^ 32 -> lev <> 1 ->
  Forall (fun q => forallb beam_on q = true) qs ->
  (1 <= length qs)%nat ->
  (Z.of_nat (length qs) - 1) * (NDPWORDS - 1) < nWordsTotal m ->
  let m' := run (drain_schedule lev qs) m in
  pc m' = L320 /\ in_handler m' = false /\
  nWordsTotal m' = Z.max 0 (nWordsTotal m - Z.of_nat (length qs) * (NDPWORDS - 1)) /\
  state m' = drained_state (nWordsTotal m) (length qs).
Proof.
  induction qs as [| q qs IH]; intros m Hpc Hst Hih Hn Hlev Hqs Hk Hleft;
    [cbn in Hk; lia |].
  inversion Hqs as [| ? ? Hq Hqs']; subst.
  assert (Hne : state m <> READY) by (rewrite Hst; discriminate).
  assert (Hw0 : waiting m m) by (repeat split; assumption).
  destruct (run_waiting m q m Hne Hq Hw0) as (Wpc & Wih & Wst & Wn & _).
  rewrite Hst in Wst.
  assert (Hn1 : 0 <= nWordsTotal (run q m) < 2 ^ 32) by (rewrite Wn; exact Hn).
  destruct (handler_run_waiting lev (run q m) Hlev Wpc Wst Wih Hn1)
    as (Rpc & Rih & Rn & Rst).
  rewrite Wn in Rn, Rst.
  cbv zeta. unfold drain_schedule. cbn [map concat].
  rewrite !run_app. fold (drain_schedule lev qs).
  set (m2 := run [IrqRaise lev; IrqComplete] (run q m)) in *.
  destruct qs as [| q' qs'].
  - cbn [drain_schedule map concat run length].
    change (Z.of_nat 1) with 1. rewrite Z.mul_1_l.
    repeat split; assumption.
  - cbn [length] in Hleft, IH |- *.
    rewrite !Nat2Z.inj_succ in Hleft. unfold NDPWORDS in *.
    assert (Hbig : 32767 < nWordsTotal m) by nia.
    assert (Rn' : nWordsTotal m2 = nWordsTotal m - 32767) by lia.
    assert (Rst' : state m2 = EOS).
    { rewrite Rst. unfold drained_state, NDPWORDS.
      change (Z.of_nat 1 * (32768 - 1)) with 32767.
      destruct (Z.leb_spec (nWordsTotal m) 32767); [lia | reflexivity]. }
    destruct (IH m2 Rpc Rst' Rih) as (Ipc & Iih & In & Ist);
      try assumption; rewrite ?Rn', ?Nat2Z.inj_succ; try lia.
    cbv zeta in Ipc, Iih, In, Ist.
    rewrite Rn', !Nat2Z.inj_succ in *.
    split; [exact Ipc | split; [exact Iih | split]].
    + rewrite In. lia.
    + rewrite Ist. unfold drained_state, NDPWORDS. rewrite !Nat2Z.inj_succ.
      destruct (Z.leb_spec (nWordsTotal m - 32767)
                  (Z.succ (Z.of_nat (length qs')) * (32768 - 1)));
        destruct (Z.leb_spec (nWordsTotal m)
                    (Z.succ (Z.succ (Z.of_nat (length qs'))) * (32768 - 1)));
        try reflexivity; lia.
Qed.

(** X4.  Draining while [main] waits.  With [main] at line 320, [state] in
    [EOS] and a count of [n] words, take any schedule with [k >= 1] handler
    runs that pass the level check, each after a stretch of polling steps,
    hardware writes to the dual-port RAM and interrupts read with the pin
    high, the buffer not yet empty before the last of the runs.  After the
    last run [max 0 (n - k * (NDPWORDS - 1))] words are left, [state] is
    [READY] if [n <= k * (NDPWORDS - 1)] and [EOS] otherwise, and [main] is
    still at line 320.  So in this phase the [n] words are drained by
    [ceil (n / 32767)] handler runs and by no fewer.  (Inside the ingest
    loop lines 164 and 173 overwrite the count between the runs; that phase
    is not covered here.) *)
Theorem drain_runs_while_main_waits lev qs m :
  pc m = L320 -> state m = EOS -> in_handler m = false ->
  0 <= nWordsTotal m < 2 ^ 32 -> lev <> 1 ->
  Forall (fun q => forallb beam_on q = true) qs ->
  (1 <= length qs)%nat ->
  (Z.of_nat (length qs) - 1) * (NDPWORDS - 1) < nWordsTotal m ->
  let k := length qs in
  let m' := run (drain_schedule lev qs) m in
  nWordsTotal m' = Z.max 0 (nWordsTotal m - Z.of_nat k * (NDPWORDS - 1)) /\
  state m' = drained_state (nWordsTotal m) k /\
  (state m' = READY <-> nWordsTotal m' = 0) /\
  pc m' = L320 /\ in_handler m' = false.
Proof.
  intros Hpc Hst Hih Hn Hlev Hqs Hk Hleft k m'.
  destruct (drain_schedule_run lev qs m Hpc Hst Hih Hn Hlev Hqs Hk Hleft)
    as (Rpc & Rih & Rn & Rst).
  fold k m' in Rpc, Rih, Rn, Rst.
  split; [exact Rn | split; [exact Rst | split; [| split; assumption]]].
  rewrite Rn, Rst. unfold drained_state, NDPWORDS.
  destruct (Z.leb_spec (nWordsTotal m) (Z.of_nat k * (32768 - 1))); split;
    intros Hx; try reflexivity; try discriminate; lia.
Qed.

Lemma drain_runs_while_main_waits_witness :
  nWordsTotal
    (run (drain_schedule 0 [[Poll; HwWrite (bank 3) 5]; [Poll; Poll]])
       drain_pending_long) = 0 /\
  state
    (run (drain_schedule 0 [[Poll; HwWrite (bank 3) 5]; [Poll; Poll]])
       drain_pending_long) = READY.
Proof.
  assert (Hpc : pc drain_pending_long = L320) by reflexivity.
  assert (Hst : state drain_pending_long = EOS) by (vm_compute; reflexivity).
  assert (Hih : in_handler drain_pending_long = false) by reflexivity.
  assert (Hn : 0 <= nWordsTotal drain_pending_long < 2 ^ 32)
    by (vm_compute; split; congruence).
  assert (Hlev : 0 <> 1) by lia.
  assert (Hqs : Forall (fun q => forallb beam_on q = true)
                  [[Poll; HwWrite (bank 3) 5]; [Poll; Poll]])
    by (repeat constructor).
  assert (Hk : (1 <= length [[Poll; HwWrite (bank 3) 5]; [Poll; Poll]])%nat)
    by (cbn; lia).
  assert (Hleft : (Z.of_nat (length [[Poll; HwWrite (bank 3) 5]; [Poll; Poll]]) - 1) *
                  (NDPWORDS - 1) < nWordsTotal drain_pending_long)
    by (vm_compute; reflexivity).
  destruct (drain_runs_while_main_waits 0 _ drain_pending_long
              Hpc Hst Hih Hn Hlev Hqs Hk Hleft) as (H1 & H2 & _).
  split.
  - refine (eq_trans H1 _). vm_compute. reflexivity.
  - refine (eq_trans H2 _). vm_compute. reflexivity.
Defined.
